(** * Service-Bot: webhook router, session/order state machine, payment callbacks

    A shallow embedding of the JavaScript sources

      - services/database.service.js   (DatabaseService)
      - services/whatsapp.service.js   (WhatsAppService, as a send log)
      - controllers/message.controller.js   (MessageController)
      - controllers/payment.controller.js   (PaymentController)
      - controllers/webhook.controller.js   (WebhookController)
      - templates/welcome.template.js   (welcomeMessage, serviceFlowResponse)

    JavaScript values are a small tagged union, objects are finite maps
    from property names to values, the three JSON files are lists of
    objects, and every [async] method is a function in a state-and-exception
    monad over the store, the log of outbound sends and a counter that
    drives the clock and the random source.  What the program prints is not
    part of the state; the conversions to a string that its log lines
    perform on request data are kept, because they can throw. *)

From Stdlib Require Import ZArith Ascii String.
From stdpp Require Import gmap strings list fin_maps pretty.

Set Warnings "-register-all".
Set Default Proof Using "Type".

Local Open Scope Z_scope.

(** ** JavaScript values *)

Module JS.

(** [JNum n] is the Number [n] for an integer [n] of magnitude at most
    2^53 (a safe integer): prices, clock readings, counters.  Fractions,
    NaN, the infinities and larger magnitudes, which print and compare
    differently, are not modelled.  [JNative] stands for a built-in object
    or function that a property read reaches through the prototype chain
    ([Object], [Object.prototype.toString], ...).  Property order inside an
    object is not recorded. *)
Inductive jval : Type :=
| JUndef
| JNull
| JBool (b : bool)
| JNum (n : Z)
| JStr (s : string)
| JArr (elems : list jval)
| JObj (props : gmap string jval)
| JNative (name : string).

Abbreviation record := (gmap string jval).

#[global] Instance jval_inhabited : Inhabited jval := populate JUndef.

(** The characters that cannot be typed inside a literal. *)
Definition dq : string := String "034"%char EmptyString.
Definition nl : string := String "010"%char EmptyString.

(** ToBoolean. *)
Definition truthy (v : jval) : bool :=
  match v with
  | JUndef | JNull => false
  | JBool b => b
  | JNum n => negb (n =? 0)
  | JStr s => negb (String.eqb s EmptyString)
  | JArr _ | JObj _ | JNative _ => true
  end.

(** [a || b] and [a && b] on values (both operands already evaluated; the
    call sites whose right operand has an effect are written with [if]). *)
Definition js_or (a b : jval) : jval := if truthy a then a else b.
Definition js_and (a b : jval) : jval := if truthy a then b else a.

(** [a === b].  Primitives compare by value.  Arrays and objects compare by
    reference: in this program the two operands always come from different
    JSON documents (a file that was just parsed, a request that was just
    parsed) or from a literal, so they are never the same reference. *)
Definition strict_eq (a b : jval) : bool :=
  match a, b with
  | JUndef, JUndef => true
  | JNull, JNull => true
  | JBool x, JBool y => bool_decide (x = y)
  | JNum x, JNum y => bool_decide (x = y)
  | JStr x, JStr y => bool_decide (x = y)
  | JNative x, JNative y => bool_decide (x = y)
  | _, _ => false
  end.

(** [Array.isArray]. *)
Definition is_array (v : jval) : bool :=
  match v with JArr _ => true | _ => false end.

Definition array_elems (v : jval) : list jval :=
  match v with JArr l => l | _ => [] end.

(** The property names every plain object inherits from [Object.prototype]. *)
Definition object_prototype_keys : list string :=
  [ "constructor"; "__proto__"; "hasOwnProperty"; "isPrototypeOf";
    "propertyIsEnumerable"; "toLocaleString"; "toString"; "valueOf";
    "__defineGetter__"; "__defineSetter__"; "__lookupGetter__";
    "__lookupSetter__" ]%string.

Definition object_prototype (k : string) : jval :=
  if existsb (String.eqb k) object_prototype_keys then JNative k else JUndef.

(** [o[k]] on an object: own property first, then the prototype. *)
Definition prop (o : record) (k : string) : jval :=
  match o !! k with
  | Some v => v
  | None => object_prototype k
  end.

(** The text ToString gives, as a template literal or a computed property
    key applies it, when the conversion returns; [ToString] below says when
    it throws instead.  The program's own uses outside the log lines are on
    values it made itself or has just compared with [===] to a stored
    primitive (an order identifier that was found), and on fields it reads
    back from its own files. *)
Fixpoint to_js_string (v : jval) : string :=
  match v with
  | JUndef => "undefined"
  | JNull => "null"
  | JBool true => "true"
  | JBool false => "false"
  | JNum n => pretty n
  | JStr s => s
  | JArr l =>
      String.concat ","
        (map (fun x => match x with
                       | JUndef | JNull => EmptyString
                       | _ => to_js_string x
                       end) l)
  | JObj _ => "[object Object]"
  | JNative k =>
      if String.eqb k "__proto__" then "[object Object]"
      else if String.eqb k "constructor" then "function Object() { [native code] }"
      else "function " +:+ k +:+ "() { [native code] }"
  end%string.

(** What [JSON.parse (JSON.stringify v)] gives back for a property value:
    [None] when the property is left out ([undefined] and functions), and
    [null] in their place inside an array.  [Object.prototype], which the
    name [__proto__] reaches, is an object without own enumerable
    properties and is written as [{}]. *)
Fixpoint json_value (v : jval) : option jval :=
  match v with
  | JUndef => None
  | JNative k => if String.eqb k "__proto__" then Some (JObj ∅) else None
  | JArr l => Some (JArr (map (fun x => default JNull (json_value x)) l))
  | JObj o => Some (JObj (omap json_value o))
  | _ => Some v
  end.

Definition json_record (o : record) : record := omap json_value o.

(** Exceptions and the result of evaluating an expression that may throw. *)
Inductive exn : Type :=
| TypeError (msg : string)
| SyntaxError (msg : string)
| Error (msg : string).

Inductive outcome (A : Type) : Type :=
| Ret (a : A)
| Throw (e : exn).
Arguments Ret {A} a.
Arguments Throw {A} e.

(** [v.k] on an arbitrary value.  Reading a property of [undefined] or
    [null] throws.  On strings, numbers, booleans and arrays only [length]
    and the inherited [Object.prototype] names are modelled; none of the
    names this program reads from request data ([entry], [changes],
    [value], [messages], [statuses], [errors], [from], [type], [id],
    [timestamp], [text], [body], [interactive], [button], [button_reply],
    [list_reply], [nfm_reply], [response_json], [code], [title],
    [message], [status], [mock]) is defined on their prototypes. *)
Definition member (v : jval) (k : string) : outcome jval :=
  match v with
  | JUndef | JNull =>
      Throw (TypeError ("Cannot read properties of " +:+ to_js_string v))
  | JObj o => Ret (prop o k)
  | JArr l =>
      Ret (if String.eqb k "length" then JNum (Z.of_nat (length l))
           else object_prototype k)
  | JStr s =>
      Ret (if String.eqb k "length" then JNum (Z.of_nat (String.length s))
           else object_prototype k)
  | JBool _ | JNum _ | JNative _ => Ret (object_prototype k)
  end.

(** [v?.k]. *)
Definition opt_member (v : jval) (k : string) : jval :=
  match member v k with
  | Ret x => x
  | Throw _ => JUndef
  end.

(** ToString with its failure.  An object is converted by calling its
    [toString], then its [valueOf]: the inherited [toString] returns
    "[object Object]"; an own property of that name is, in a parsed
    document, never a function, and then neither an own [valueOf] (not a
    function) nor the inherited one (which returns the object itself) gives
    a primitive, so the conversion throws a [TypeError].  An array is
    joined with commas, [null] and [undefined] printing as the empty
    string, and throws when an element does. *)
Fixpoint ToString (v : jval) : outcome string :=
  match v with
  | JArr l =>
      match
        (fix join (l : list jval) : outcome (list string) :=
           match l with
           | [] => Ret []
           | x :: rest =>
               match (match x with
                      | JUndef | JNull => Ret EmptyString
                      | _ => ToString x
                      end) with
               | Throw e => Throw e
               | Ret t =>
                   match join rest with
                   | Throw e => Throw e
                   | Ret ts => Ret (t :: ts)
                   end
               end
           end) l
      with
      | Throw e => Throw e
      | Ret ts => Ret (String.concat "," ts)
      end
  | JObj o =>
      match o !! "toString" with
      | None => Ret "[object Object]"%string
      | Some _ => Throw (TypeError "Cannot convert object to primitive value")
      end
  | _ => Ret (to_js_string v)
  end.

(** The values a template literal can print. *)
Definition printable (v : jval) : bool :=
  match ToString v with Ret _ => true | Throw _ => false end.

(** ** Strings: [toLowerCase] and [trim]

    Strings are sequences of bytes, the UTF-8 encoding of the text.
    [toLowerCase] maps the letters A-Z and leaves every other byte alone:
    the letters outside ASCII that JavaScript also maps stay outside ASCII,
    except the Kelvin sign, which becomes "k", a letter no keyword of this
    program contains.  [trim] strips the white space and the line
    terminators of ECMAScript: TAB, LF, VT, FF, CR, SPACE, U+00A0, U+1680,
    U+2000 to U+200A, U+2028, U+2029, U+202F, U+205F, U+3000 and U+FEFF. *)

Definition lower_ascii (c : ascii) : ascii :=
  let n := nat_of_ascii c in
  if ((65 <=? n) && (n <=? 90))%nat then ascii_of_nat (n + 32) else c.

Fixpoint toLowerCase (s : string) : string :=
  match s with
  | EmptyString => EmptyString
  | String c s' => String (lower_ascii c) (toLowerCase s')
  end.

(** White space of one, two and three bytes. *)
Definition is_space (c : ascii) : bool :=
  let n := nat_of_ascii c in
  ((9 <=? n) && (n <=? 13) || (n =? 32))%nat.

Definition is_space2 (c1 c2 : ascii) : bool :=
  ((nat_of_ascii c1 =? 194) && (nat_of_ascii c2 =? 160))%nat.

Definition is_space3 (c1 c2 c3 : ascii) : bool :=
  let a := nat_of_ascii c1 in
  let b := nat_of_ascii c2 in
  let c := nat_of_ascii c3 in
  ((a =? 225) && (b =? 154) && (c =? 128)
   || (a =? 226) && (b =? 128)
      && ((128 <=? c) && (c <=? 138) || (c =? 168) || (c =? 169) || (c =? 175))
   || (a =? 226) && (b =? 129) && (c =? 159)
   || (a =? 227) && (b =? 128) && (c =? 128)
   || (a =? 239) && (b =? 187) && (c =? 191))%nat.

Fixpoint trimStart (s : string) : string :=
  match s with
  | EmptyString => EmptyString
  | String c1 s1 =>
      if is_space c1 then trimStart s1
      else
        match s1 with
        | EmptyString => s
        | String c2 s2 =>
            if is_space2 c1 c2 then trimStart s2
            else
              match s2 with
              | EmptyString => s
              | String c3 s3 =>
                  if is_space3 c1 c2 c3 then trimStart s3 else s
              end
        end
  end.

(** Drops the trailing white space: the string is cut where what remains
    is white space only. *)
Fixpoint trimEnd (s : string) : string :=
  match s with
  | EmptyString => EmptyString
  | String c s' =>
      if String.eqb (trimStart s) EmptyString then EmptyString
      else String c (trimEnd s')
  end.

Definition trim (s : string) : string := trimEnd (trimStart s).

End JS.
Export JS.

(** ** The environment and the world *)

(** What the runtime supplies: the clock, the random source, [JSON.parse]
    and the variables of [process.env].  The [n]-th reading of the clock or
    of the random source is a function of [n]. *)
Record Env : Type := mkEnv {
  date_now : nat -> Z;                  (* Date.now() *)
  to_iso : Z -> string;                 (* new Date(ms).toISOString() *)
  to_locale_date : Z -> string;         (* ....toLocaleDateString("en-IN") *)
  random36 : nat -> string;             (* Math.random().toString(36).substr(2, 6) *)
  random1000 : nat -> Z;                (* Math.floor(Math.random() * 1000) *)
  json_parse : string -> option jval;   (* JSON.parse, None on a SyntaxError *)
  gateway : nat -> jval -> jval -> jval;(* what the send resolves to *)
  VERIFY_TOKEN : option string;
  BASE_URL : option string;
  WHATSAPP_FLOW_ID_8A : option string;
  WHATSAPP_FLOW_ID_712 : option string;
  WHATSAPP_FLOW_ID_FERFAR : option string;
  WHATSAPP_FLOW_ID_PROPERTY : option string;
}.

(** [process.env.X] as a value, and [process.env.X || fallback]. *)
Definition env_value (x : option string) : jval :=
  match x with Some s => JStr s | None => JUndef end.

Definition env_or (x : option string) (fallback : string) : string :=
  match x with
  | Some s => if String.eqb s EmptyString then fallback else s
  | None => fallback
  end.

(** The three JSON files (each an array of objects), the log of the calls
    made to [whatsappService.sendMessage] (recipient and message), and the
    number of clock and random readings taken so far. *)
Record World : Type := mkWorld {
  users : list record;
  orders : list record;
  sessions : list record;
  outbox : list (jval * jval);
  ticks : nat;
}.

Inductive file : Type := usersFile | ordersFile | sessionsFile.

Definition content (f : file) (w : World) : list record :=
  match f with
  | usersFile => users w
  | ordersFile => orders w
  | sessionsFile => sessions w
  end.

Definition store (f : file) (data : list record) (w : World) : World :=
  match f with
  | usersFile => mkWorld data (orders w) (sessions w) (outbox w) (ticks w)
  | ordersFile => mkWorld (users w) data (sessions w) (outbox w) (ticks w)
  | sessionsFile => mkWorld (users w) (orders w) data (outbox w) (ticks w)
  end.

Definition tick (w : World) : World :=
  mkWorld (users w) (orders w) (sessions w) (outbox w) (S (ticks w)).

Definition record_send (to message : jval) (w : World) : World :=
  mkWorld (users w) (orders w) (sessions w) (outbox w ++ [(to, message)])
          (ticks w).

(** ** The monad of [async] methods: state, and exceptions that keep the
    state reached when they were thrown. *)

Definition M (A : Type) : Type := World -> outcome A * World.

#[global] Instance M_ret : MRet M := fun A a w => (Ret a, w).

#[global] Instance M_bind : MBind M := fun A B f m w =>
  match m w with
  | (Ret a, w') => f a w'
  | (Throw e, w') => (Throw e, w')
  end.

Definition throw {A} (e : exn) : M A := fun w => (Throw e, w).

Definition lift {A} (o : outcome A) : M A := fun w => (o, w).

(** [try { body } catch (e) { handler e }]. *)
Definition try_catch {A} (body : M A) (handler : exn -> M A) : M A :=
  fun w =>
    match body w with
    | (Ret a, w') => (Ret a, w')
    | (Throw e, w') => handler e w'
    end.

(** [for (const x of l) { body x }]. *)
Fixpoint for_of {A} (l : list A) (body : A -> M unit) : M unit :=
  match l with
  | [] => mret tt
  | x :: rest => body x ;; for_of rest body
  end.

(** The state an invocation ends in, and what it returns. *)
Definition exec {A} (m : M A) (w : World) : World := snd (m w).
Definition result {A} (m : M A) (w : World) : outcome A := fst (m w).

(** [array.find (x => x[k] === v)] and [array.findIndex (...)]. *)
Definition keyed (k : string) (v : jval) (o : record) : Prop :=
  strict_eq (prop o k) v = true.

#[global] Instance keyed_dec k v o : Decision (keyed k v o) :=
  decide (strict_eq (prop o k) v = true).

Definition array_find (k : string) (v : jval) (l : list record)
  : option record := snd <$> list_find (keyed k v) l.

Definition array_findIndex (k : string) (v : jval) (l : list record)
  : option nat := fst <$> list_find (keyed k v) l.

(** ** The clock and the random source *)

Module Runtime.
Section WithEnv.
Context (env : Env).

(** [Date.now()] *)
Definition Date_now : M Z :=
  fun w => (Ret (date_now env (ticks w)), tick w).

(** [new Date().toISOString()] *)
Definition now_iso : M jval :=
  ms ← Date_now; mret (JStr (to_iso env ms)).

(** [Math.random().toString(36).substr(2, 6)] *)
Definition random_suffix : M string :=
  fun w => (Ret (random36 env (ticks w)), tick w).

(** [Math.floor(Math.random() * 1000)] *)
Definition random_below_1000 : M Z :=
  fun w => (Ret (random1000 env (ticks w)), tick w).

End WithEnv.
End Runtime.

(** ** database.service.js *)

Module DatabaseService.
Section WithEnv.
Context (env : Env).

Import Runtime.

(** The storage is taken to be reliable: [readFile] returns the array
    last written, [writeFile] replaces it by what [JSON.stringify] keeps
    of the data and returns [true]. *)
Definition readFile (f : file) : M (list record) :=
  fun w => (Ret (content f w), w).

Definition writeFile (f : file) (data : list record) : M bool :=
  fun w => (Ret true, store f (json_record <$> data) w).

(** *** Users *)

Definition createUser (userData : record) : M record :=
  users ← readFile usersFile;
  ms ← Date_now env;
  r ← random_suffix env;
  createdAt ← now_iso env;
  updatedAt ← now_iso env;
  let newUser : record :=
    <["updatedAt" := updatedAt]>
      (<["createdAt" := createdAt]>
         (userData ∪ {[ "id" := JStr ("user_" +:+ pretty ms +:+ "_" +:+ r) ]})) in
  writeFile usersFile (users ++ [newUser]);;
  mret newUser.

Definition findUserByWhatsappId (whatsappId : jval) : M (option record) :=
  users ← readFile usersFile;
  mret (array_find "whatsappId" whatsappId users).

(** Returns [None] for the source's [null]. *)
Definition updateUser (whatsappId : jval) (updates : record)
  : M (option record) :=
  users ← readFile usersFile;
  match array_findIndex "whatsappId" whatsappId users with
  | None => mret None
  | Some userIndex =>
      updatedAt ← now_iso env;
      let merged : record :=
        <["updatedAt" := updatedAt]>
          (updates ∪ default ∅ (users !! userIndex)) in
      writeFile usersFile (<[userIndex := merged]> users);;
      mret (Some merged)
  end.

Definition upsertUser (whatsappId : jval) (userData : record)
  : M (option record) :=
  existingUser ← findUserByWhatsappId whatsappId;
  match existingUser with
  | Some _ => updateUser whatsappId userData
  | None =>
      newUser ← createUser (userData ∪ {[ "whatsappId" := whatsappId ]});
      mret (Some newUser)
  end.

(** *** Orders *)

Definition createOrder (orderData : record) : M record :=
  orders ← readFile ordersFile;
  ms ← Date_now env;
  r ← random_suffix env;
  orderId ←
    (if truthy (prop orderData "orderId")
     then mret (prop orderData "orderId")
     else ms' ← Date_now env;
          k ← random_below_1000 env;
          mret (JStr ("ORD" +:+ pretty ms' +:+ pretty k)));
  createdAt ← now_iso env;
  updatedAt ← now_iso env;
  let newOrder : record :=
    <["paymentStatus" := JStr "pending"]>
      (<["status" := JStr "pending"]>
         (<["updatedAt" := updatedAt]>
            (<["createdAt" := createdAt]>
               (orderData ∪
                  <["orderId" := orderId]>
                    {[ "id" := JStr ("order_" +:+ pretty ms +:+ "_" +:+ r) ]})))) in
  writeFile ordersFile (orders ++ [newOrder]);;
  mret newOrder.

Definition findOrderByOrderId (orderId : jval) : M (option record) :=
  orders ← readFile ordersFile;
  mret (array_find "orderId" orderId orders).

Definition updateOrder (orderId : jval) (updates : record)
  : M (option record) :=
  orders ← readFile ordersFile;
  match array_findIndex "orderId" orderId orders with
  | None => mret None
  | Some orderIndex =>
      updatedAt ← now_iso env;
      let merged : record :=
        <["updatedAt" := updatedAt]>
          (updates ∪ default ∅ (orders !! orderIndex)) in
      writeFile ordersFile (<[orderIndex := merged]> orders);;
      mret (Some merged)
  end.

(** *** Sessions *)

Definition createSession (sessionData : record) : M record :=
  sessions ← readFile sessionsFile;
  ms ← Date_now env;
  r ← random_suffix env;
  createdAt ← now_iso env;
  updatedAt ← now_iso env;
  let newSession : record :=
    <["updatedAt" := updatedAt]>
      (<["createdAt" := createdAt]>
         (sessionData ∪
            {[ "id" := JStr ("session_" +:+ pretty ms +:+ "_" +:+ r) ]})) in
  writeFile sessionsFile (sessions ++ [newSession]);;
  mret newSession.

Definition findSessionByWhatsappId (whatsappId : jval) : M (option record) :=
  sessions ← readFile sessionsFile;
  mret (array_find "whatsappId" whatsappId sessions).

Definition updateSession (whatsappId : jval) (updates : record)
  : M (option record) :=
  sessions ← readFile sessionsFile;
  match array_findIndex "whatsappId" whatsappId sessions with
  | None => mret None
  | Some sessionIndex =>
      updatedAt ← now_iso env;
      let merged : record :=
        <["updatedAt" := updatedAt]>
          (updates ∪ default ∅ (sessions !! sessionIndex)) in
      writeFile sessionsFile (<[sessionIndex := merged]> sessions);;
      mret (Some merged)
  end.

Definition createOrUpdateSession (whatsappId : jval) (sessionData : record)
  : M (option record) :=
  existingSession ← findSessionByWhatsappId whatsappId;
  match existingSession with
  | Some _ => updateSession whatsappId sessionData
  | None => newSession ← createSession sessionData; mret (Some newSession)
  end.

(** *** Queries *)

(** [orders.filter((order) => order.whatsappId === whatsappId)] *)
Definition findOrdersByWhatsappId (whatsappId : jval) : M (list record) :=
  orders ← readFile ordersFile;
  mret (filter (keyed "whatsappId" whatsappId) orders).

End WithEnv.
End DatabaseService.

(** An object literal [{ k1: v1, ..., kn: vn }] (distinct keys). *)
Definition obj (fields : list (string * jval)) : record := list_to_map fields.

(** ** whatsapp.service.js

    [sendMessage] wraps its whole body in one [try]/[catch] whose handler
    returns an error object, so it never throws; whether the platform took
    the message shows only in the value it resolves to, which no caller
    reads.  A call is one attempted send: it is appended to the outbox. *)

Module WhatsAppService.
Section WithEnv.
Context (env : Env).

Definition sendMessage (to message : jval) : M jval :=
  fun w =>
    (Ret (gateway env (ticks w) to message), tick (record_send to message w)).

Definition text_message (text : string) : jval :=
  JObj (obj [ ("type", JStr "text");
              ("text", JObj (obj [ ("body", JStr text) ])) ]).

Definition sendTextMessage (to : jval) (text : string) : M jval :=
  sendMessage to (text_message text).

Definition sendPaymentLink (to : jval) (orderDetails : record) : M jval :=
  let message :=
    "Payment Required" +:+ nl +:+ nl +:+
    "Service: " +:+ to_js_string (prop orderDetails "service") +:+ nl +:+
    "Amount: Rs." +:+ to_js_string (prop orderDetails "amount") +:+ nl +:+
    "Order ID: " +:+ to_js_string (prop orderDetails "orderId") +:+ nl +:+ nl +:+
    "Please pay using this link:" +:+ nl +:+
    to_js_string (prop orderDetails "paymentLink") +:+ nl +:+ nl +:+
    "After payment, you'll receive confirmation here." in
  sendTextMessage to message.

(** [array.map(f)] for an [f] that may throw. *)
Fixpoint map_M {A B} (f : A -> M B) (l : list A) : M (list B) :=
  match l with
  | [] => mret []
  | x :: rest => y ← f x; ys ← map_M f rest; mret (y :: ys)
  end.

(** The message is built before [sendMessage] is entered, so a button
    that is [null] makes the call throw. *)
Definition sendInteractiveMessage (to : jval) (buttons : list jval) : M jval :=
  items ← map_M
    (fun btn =>
       id ← lift (member btn "id");
       title ← lift (member btn "title");
       mret (JObj (obj [ ("type", JStr "reply");
                         ("reply", JObj (obj [ ("id", id); ("title", title) ])) ])))
    buttons;
  sendMessage to
    (JObj (obj
       [ ("type", JStr "interactive");
         ("interactive", JObj (obj
            [ ("type", JStr "button");
              ("body", JObj (obj [ ("text", JStr "Please select a service:") ]));
              ("action", JObj (obj [ ("buttons", JArr items) ])) ])) ])).

Definition sendServiceButtons (to : jval) : M jval :=
  sendInteractiveMessage to
    [ JObj (obj [ ("id", JStr "service_8a"); ("title", JStr "8A Form") ]);
      JObj (obj [ ("id", JStr "service_712"); ("title", JStr "7/12 Form") ]);
      JObj (obj [ ("id", JStr "service_ferfar"); ("title", JStr "Ferfar") ]);
      JObj (obj [ ("id", JStr "service_property"); ("title", JStr "Property Card") ]) ].

(** [s.includes(t)] *)
Fixpoint includes (s t : string) : bool :=
  String.prefix t s
  || match s with
     | EmptyString => false
     | String _ s' => includes s' t
     end.

(** [this.hasRealCredentials], as the constructor computes it from
    [process.env.WHATSAPP_ACCESS_TOKEN]:
    [accessToken && !accessToken.includes("test") &&
     accessToken !== "your_whatsapp_access_token_here"]. *)
Definition hasRealCredentials (accessToken : option string) : jval :=
  match accessToken with
  | None => JUndef
  | Some s =>
      js_and (JStr s)
        (js_and (JBool (negb (includes s "test")))
                (JBool (negb (String.eqb s "your_whatsapp_access_token_here"))))
  end.

(** [isTestMode()]: [!this.hasRealCredentials] *)
Definition isTestMode (accessToken : option string) : bool :=
  negb (truthy (hasRealCredentials accessToken)).

End WithEnv.
End WhatsAppService.

(** ** templates/welcome.template.js *)

Definition reply_button (id title : string) : jval :=
  JObj (obj [ ("type", JStr "reply");
              ("reply", JObj (obj [ ("id", JStr id); ("title", JStr title) ])) ]).

Definition welcomeMessage : jval :=
  JObj (obj
    [ ("type", JStr "interactive");
      ("interactive", JObj (obj
        [ ("type", JStr "button");
          ("header", JObj (obj
             [ ("type", JStr "text");
               ("text", JStr "Welcome to Land Record Services") ]));
          ("body", JObj (obj
             [ ("text", JStr "Hello! I'm here to help you with land record services. Please choose the service you need from the options below:") ]));
          ("action", JObj (obj
             [ ("buttons", JArr
                  [ reply_button "8a_service" "8A Form";
                    reply_button "712_service" "7/12 Form";
                    reply_button "ferfar_service" "Ferfar";
                    reply_button "property_card_service" "Property Card" ]) ])) ])) ]).

Definition flow_service (header body flowToken : string) : jval :=
  JObj (obj [ ("header", JStr header); ("body", JStr body);
              ("flowToken", JStr flowToken) ]).

Definition flowData : record :=
  obj [ ("8a_service",
           flow_service "8A Form Application"
             "Please fill out the 8A form to proceed." "8a_flow_token");
        ("712_service",
           flow_service "7/12 Form Application"
             "Please fill out the 7/12 form to proceed." "712_flow_token");
        ("ferfar_service",
           flow_service "Ferfar Application"
             "Please fill out the Ferfar form to proceed." "ferfar_flow_token");
        ("property_card_service",
           flow_service "Property Card Application"
             "Please fill out the Property Card form to proceed."
             "property_card_flow_token") ].

(** [service.header] throws when [flowData[serviceType]] is [undefined]. *)
Definition serviceFlowResponse (serviceType : jval) : outcome jval :=
  let service := prop flowData (to_js_string serviceType) in
  match member service "header" with
  | Throw e => Throw e
  | Ret header =>
      match member service "body" with
      | Throw e => Throw e
      | Ret body =>
          match member service "flowToken" with
          | Throw e => Throw e
          | Ret flowToken =>
              Ret (JObj (obj
                [ ("type", JStr "interactive");
                  ("interactive", JObj (obj
                    [ ("type", JStr "flow");
                      ("header", JObj (obj [ ("type", JStr "text");
                                             ("text", header) ]));
                      ("body", JObj (obj [ ("text", body) ]));
                      ("action", JObj (obj
                         [ ("name", JStr "flow");
                           ("parameters", JObj (obj
                              [ ("flow_message_version", JStr "3");
                                ("flow_action", JStr "navigate");
                                ("flow_id",
                                   JStr
                                     (if strict_eq serviceType (JStr "8a_service")
                                      then "1234567890"
                                      else if strict_eq serviceType (JStr "712_service")
                                      then "1234567891"
                                      else if strict_eq serviceType
                                                (JStr "ferfar_service")
                                      then "1234567892"
                                      else "1234567893"));
                                ("flow_cta", JStr "Start Form");
                                ("flow_token", flowToken) ])) ])) ])) ]))
          end
      end
  end.

(** ** message.controller.js *)

Module MessageController.
Section WithEnv.
Context (env : Env).

Import Runtime DatabaseService WhatsAppService.

(** [{ "8A Form": 500, "7/12 Form": 300, Ferfar: 400, "Property Card": 250 }] *)
Definition amounts : record :=
  obj [ ("8A Form", JNum 500); ("7/12 Form", JNum 300);
        ("Ferfar", JNum 400); ("Property Card", JNum 250) ].

(** [return amounts[serviceName] || 100] *)
Definition getServiceAmount (serviceName : jval) : jval :=
  js_or (prop amounts (to_js_string serviceName)) (JNum 100).

Definition flowIds : record :=
  obj [ ("8a_service", JStr (env_or (WHATSAPP_FLOW_ID_8A env) "1234567890"));
        ("712_service", JStr (env_or (WHATSAPP_FLOW_ID_712 env) "1234567891"));
        ("ferfar_service", JStr (env_or (WHATSAPP_FLOW_ID_FERFAR env) "1234567892"));
        ("property_card_service",
           JStr (env_or (WHATSAPP_FLOW_ID_PROPERTY env) "1234567893")) ].

Definition buildFlowMessage (serviceId serviceName : string) : M jval :=
  ms ← Date_now env;
  mret (JObj (obj
    [ ("type", JStr "interactive");
      ("interactive", JObj (obj
        [ ("type", JStr "flow");
          ("header", JObj (obj [ ("type", JStr "text");
                                 ("text", JStr serviceName) ]));
          ("body", JObj (obj
             [ ("text", JStr ("Please fill out the " +:+ serviceName +:+
                              " form to proceed with your application.")) ]));
          ("footer", JObj (obj
             [ ("text", JStr "Your data is secure and encrypted.") ]));
          ("action", JObj (obj
             [ ("name", JStr "flow");
               ("parameters", JObj (obj
                  [ ("flow_message_version", JStr "3");
                    ("flow_action", JStr "navigate");
                    ("flow_id", prop flowIds serviceId);
                    ("flow_cta", JStr "Start Form");
                    ("flow_token",
                       JStr ("token_" +:+ pretty ms +:+ "_" +:+ serviceId)) ])) ])) ])) ])).

(** The log line after the session is written prints [whatsappId]; it is
    inside the [try], whose handler rethrows. *)
Definition triggerServiceFlow (whatsappId : jval) (serviceId serviceName : string)
  : M unit :=
  try_catch
    (createdAt ← now_iso env;
     createOrUpdateSession env whatsappId
       (obj [ ("whatsappId", whatsappId);
              ("step", JStr "awaiting_flow_completion");
              ("selectedService", JStr serviceId);
              ("serviceName", JStr serviceName);
              ("createdAt", createdAt) ]);;
     lift (ToString whatsappId);;
     flowMessage ← buildFlowMessage serviceId serviceName;
     sendMessage env whatsappId flowMessage;;
     mret tt)
    (fun error => throw error).

Definition session_expired_text : string :=
  "Session expired. Please start over by sending " +:+ dq +:+ "hi" +:+ dq +:+ ".".

Definition handleFlowCompletion (whatsappId flowToken flowData : jval) : M unit :=
  try_catch
    (session ← findSessionByWhatsappId whatsappId;
     match session with
     | None =>
         sendTextMessage env whatsappId session_expired_text;;
         mret tt
     | Some session =>
         ms ← Date_now env;
         r ← random_suffix env;
         createdAt ← now_iso env;
         order ← createOrder env
           (obj [ ("orderId", JStr ("ORD_" +:+ pretty ms +:+ "_" +:+ r));
                  ("whatsappId", whatsappId);
                  ("serviceType", prop session "serviceName");
                  ("userData", flowData);
                  ("amount", getServiceAmount (prop session "serviceName"));
                  ("status", JStr "pending");
                  ("paymentStatus", JStr "pending");
                  ("createdAt", createdAt) ]);
         createOrUpdateSession env whatsappId
           (<["orderId" := prop order "orderId"]>
              (<["step" := JStr "awaiting_payment"]> session));;
         let baseUrl := env_or (BASE_URL env) "http://localhost:3000" in
         let paymentLink :=
           baseUrl +:+ "/payment/checkout?orderId=" +:+
           to_js_string (prop order "orderId") +:+
           "&whatsappId=" +:+ to_js_string whatsappId in
         let paymentMessage :=
           "Thank you for filling the form!" +:+ nl +:+ nl +:+
           "Order ID: " +:+ to_js_string (prop order "orderId") +:+ nl +:+
           "Service: " +:+ to_js_string (prop session "serviceName") +:+ nl +:+
           "Amount: Rs." +:+ to_js_string (prop order "amount") +:+ nl +:+ nl +:+
           "Click below to proceed with payment:" in
         sendTextMessage env whatsappId paymentMessage;;
         sendPaymentLink env whatsappId
           (obj [ ("orderId", prop order "orderId");
                  ("service", prop session "serviceName");
                  ("amount", prop order "amount");
                  ("paymentLink", JStr paymentLink) ]);;
         mret tt
     end)
    (fun error =>
       sendTextMessage env whatsappId
         "An error occurred while processing your form. Please try again.";;
       mret tt).

(** [messageText.toLowerCase().trim()]: a [TypeError] unless the value
    is a string. *)
Definition normalise (messageText : jval) : outcome string :=
  match messageText with
  | JStr s => Ret (trim (toLowerCase s))
  | JUndef | JNull =>
      Throw (TypeError ("Cannot read properties of " +:+ to_js_string messageText))
  | _ => Throw (TypeError "messageText.toLowerCase is not a function")
  end.

(** [user.name] on what [upsertUser] returned ([null] when not found). *)
Definition nullable (o : option record) : jval :=
  match o with Some r => JObj r | None => JNull end.

(** The first log lines print [from] and [messageText] before the [try]
    is entered, so a value that cannot be printed makes the call throw
    with nothing done.  The log line inside the [try] prints
    [user.name || "New user"] and [from] again: [from] has been printed
    already, and [name] is a field that no function of this program
    writes, so it is [undefined] in every users file the program produced;
    the conversion of a [name] that was put into the file by other means
    is not modelled. *)
Definition handleMessage (from messageText : jval) : M unit :=
  lift (ToString from);;
  lift (ToString messageText);;
  try_catch
    (lastSeen ← now_iso env;
     user ← upsertUser env from
              (obj [ ("whatsappId", from);
                     ("phoneNumber", from);
                     ("lastSeen", lastSeen);
                     ("lastMessage", messageText) ]);
     lift (member (nullable user) "name");;
     text ← lift (normalise messageText);
     if String.eqb text "hi" || String.eqb text "hello" || String.eqb text "start"
     then sendMessage env from welcomeMessage;; mret tt
     else if String.eqb text "8a_service" || String.eqb text "8a"
             || String.eqb text "8a form"
     then triggerServiceFlow from "8a_service" "8A Form"
     else if String.eqb text "712_service" || String.eqb text "712"
             || String.eqb text "7/12"
     then triggerServiceFlow from "712_service" "7/12 Form"
     else if String.eqb text "ferfar_service" || String.eqb text "ferfar"
     then triggerServiceFlow from "ferfar_service" "Ferfar"
     else if String.eqb text "property_card_service" || String.eqb text "property"
             || String.eqb text "property card"
     then triggerServiceFlow from "property_card_service" "Property Card"
     else
       sendTextMessage env from
         ("I didn't understand that. Type " +:+ dq +:+ "hi" +:+ dq +:+
          " to see available services.");;
       mret tt)
    (fun error =>
       sendTextMessage env from
         ("Sorry, I encountered an error. Please try again or send " +:+
          dq +:+ "hi" +:+ dq +:+ " to restart.");;
       mret tt).

End WithEnv.
End MessageController.

(** ** HTTP requests and responses *)

(** [req.query] is always an object; [req.body] is whatever the body
    parsers left there. *)
Record request : Type := mkRequest {
  query : record;
  body : jval;
}.

(** The three HTML pages of payment.controller.js, by name; the first one
    interpolates the order id, the amount and the service. *)
Inductive view : Type :=
| MockSuccessPage (orderId amount serviceType : string)
| SuccessPage
| FailurePage.

Inductive payload : Type :=
| Json (v : jval)          (* res.json(v) *)
| Sent (v : jval)          (* res.send(v) *)
| Html (page : view).      (* res.send(`<!DOCTYPE html>...`) *)

Record response : Type := mkResponse {
  status : Z;
  sent : payload;
}.

(** ** payment.controller.js *)

Module PaymentController.
Section WithEnv.
Context (env : Env).

Import Runtime DatabaseService WhatsAppService.

Definition sendPaymentConfirmation (whatsappId : jval) (order : record)
  : M unit :=
  try_catch
    (ms ← Date_now env;
     let message :=
       "Payment Successful!" +:+ nl +:+ nl +:+
       "Order ID: " +:+ to_js_string (prop order "orderId") +:+ nl +:+
       "Service: " +:+ to_js_string (prop order "serviceType") +:+ nl +:+
       "Amount: Rs." +:+ to_js_string (prop order "amount") +:+ nl +:+
       "Date: " +:+ to_locale_date env ms +:+ nl +:+ nl +:+
       "Your application has been received. We'll process it within 24 hours." in
     sendTextMessage env whatsappId message;;
     mret tt)
    (fun error => mret tt).

(** The body is the placeholder of the source: it logs and returns
    [true] for every signature. *)
Definition verifyPaymentSignature (orderId paymentId signature : jval)
  : M bool :=
  try_catch (mret true) (fun error => mret false).

Definition handleFailure (req : request) : M response :=
  try_catch
    (let orderId := prop (query req) "orderId" in
     (if truthy orderId then
        failedAt ← now_iso env;
        updateOrder env orderId
          (obj [ ("status", JStr "failed");
                 ("paymentStatus", JStr "failed");
                 ("failedAt", failedAt) ]);;
        order ← findOrderByOrderId orderId;
        match order with
        | Some order =>
            sendTextMessage env (prop order "whatsappId")
              ("Payment failed for order " +:+ to_js_string orderId +:+
               ". Please try again or contact support.");;
            mret tt
        | None => mret tt
        end
      else mret tt);;
     mret (mkResponse 200 (Html FailurePage)))
    (fun error =>
       mret (mkResponse 500
               (Json (JObj (obj [ ("error", JStr "Internal server error") ]))))).

(** [handleSuccess] with the method it calls as [this.verifyPaymentSignature]
    left open. *)
Definition handleSuccessWith
    (verify : jval -> jval -> jval -> M bool) (req : request) : M response :=
  try_catch
    (let orderId := prop (query req) "orderId" in
     let paymentId := prop (query req) "paymentId" in
     let signature := prop (query req) "signature" in
     mock ← lift (member (body req) "mock");
     if negb (truthy orderId)
     then mret (mkResponse 400
                  (Json (JObj (obj [ ("error", JStr "Missing orderId") ]))))
     else
       order ← findOrderByOrderId orderId;
       match order with
       | None =>
           mret (mkResponse 404
                   (Json (JObj (obj [ ("error", JStr "Order not found") ]))))
       | Some order =>
           if strict_eq mock (JStr "true") then
             paymentId' ←
               (if truthy paymentId then mret paymentId
                else ms ← Date_now env; mret (JStr ("mock_" +:+ pretty ms)));
             completedAt ← now_iso env;
             updateOrder env orderId
               (obj [ ("status", JStr "completed");
                      ("paymentStatus", JStr "captured");
                      ("paymentId", paymentId');
                      ("completedAt", completedAt) ]);;
             sendPaymentConfirmation (prop order "whatsappId") order;;
             mret (mkResponse 200
                     (Html (MockSuccessPage
                              (to_js_string orderId)
                              (to_js_string (prop order "amount"))
                              (to_js_string (prop order "serviceType")))))
           else
             verified ←
               (if truthy paymentId && truthy signature
                then verify orderId paymentId signature
                else mret true);
             if negb verified
             then mret (mkResponse 400
                          (Json (JObj (obj [ ("error",
                                              JStr "Payment verification failed") ]))))
             else
               completedAt ← now_iso env;
               updateOrder env orderId
                 (obj [ ("status", JStr "completed");
                        ("paymentStatus", JStr "captured");
                        ("paymentId", js_or paymentId (JStr "razorpay_payment_id"));
                        ("completedAt", completedAt) ]);;
               sendPaymentConfirmation (prop order "whatsappId") order;;
               completedAt' ← now_iso env;
               createOrUpdateSession env (prop order "whatsappId")
                 (obj [ ("whatsappId", prop order "whatsappId");
                        ("step", JStr "completed");
                        ("orderId", orderId);
                        ("completedAt", completedAt') ]);;
               mret (mkResponse 200 (Html SuccessPage))
       end)
    (fun error => handleFailure req).

Definition handleSuccess (req : request) : M response :=
  handleSuccessWith verifyPaymentSignature req.

Definition createPaymentLink (orderId : jval) : M string :=
  try_catch
    (order ← findOrderByOrderId orderId;
     match order with
     | None => throw (Error "Order not found")
     | Some _ =>
         let baseUrl := env_or (BASE_URL env) "http://localhost:3000" in
         mret (baseUrl +:+ "/payment/checkout?orderId=" +:+ to_js_string orderId)
     end)
    (fun error => throw error).

End WithEnv.
End PaymentController.

(** ** webhook.controller.js *)

Module WebhookController.
Section WithEnv.
Context (env : Env).

Import WhatsAppService MessageController.

(** The two log lines that print [mode] and [token] run before the
    comparison. *)
Definition verify (req : request) : M response :=
  let mode := prop (query req) "hub.mode" in
  let token := prop (query req) "hub.verify_token" in
  let challenge := prop (query req) "hub.challenge" in
  lift (ToString mode);;
  lift (ToString token);;
  if strict_eq mode (JStr "subscribe")
     && strict_eq token (env_value (VERIFY_TOKEN env))
  then mret (mkResponse 200 (Sent challenge))
  else mret (mkResponse 403 (Sent (JStr "Forbidden"))).

Definition parseFlowResponse (responseJson : jval) : jval :=
  match responseJson with
  | JStr s =>
      match json_parse env s with
      | Some v => v
      | None => JObj ∅
      end
  | _ => responseJson
  end.

(** Called with [value.messages] an array.  The four log lines at the
    top of the loop body print [message.from], [.type], [.id] and
    [.timestamp] outside the [try]; the log lines of the text, button-click
    and old-format branches print what they pass on, inside it. *)
Definition handleIncomingMessages (value : jval) : M unit :=
  messages ← lift (member value "messages");
  for_of (array_elems (js_or messages (JArr [])))
    (fun message =>
       from ← lift (member message "from");
       lift (ToString from);;
       type ← lift (member message "type");
       lift (ToString type);;
       id ← lift (member message "id");
       lift (ToString id);;
       timestamp ← lift (member message "timestamp");
       lift (ToString timestamp);;
       try_catch
         (if strict_eq type (JStr "text") then
            text ← lift (member message "text");
            body ← lift (member text "body");
            lift (ToString body);;
            handleMessage env from body
          else if strict_eq type (JStr "interactive") then
            interactive0 ← lift (member message "interactive");
            let interactive := js_or interactive0 (JObj ∅) in
            button_reply ← lift (member interactive "button_reply");
            list_reply ← lift (member interactive "list_reply");
            nfm_reply ← lift (member interactive "nfm_reply");
            let replyId :=
              js_or (opt_member button_reply "id") (opt_member list_reply "id") in
            let flowResponse := opt_member nfm_reply "response_json" in
            if truthy flowResponse then
              handleFlowCompletion env from flowResponse
                (parseFlowResponse flowResponse)
            else if truthy replyId then
              lift (ToString replyId);;
              handleMessage env from replyId
            else mret tt
          else if strict_eq type (JStr "button") then
            button ← lift (member message "button");
            text ← lift (member button "text");
            lift (ToString text);;
            handleMessage env from text
          else
            sendTextMessage env from
              ("I can only process text messages and forms right now. Please send "
               +:+ dq +:+ "hi" +:+ dq +:+ " to start.");;
            mret tt)
         (fun err => mret tt)).

(** Both loops print the fields they read. *)
Definition handleStatusUpdates (value : jval) : M unit :=
  statuses ← lift (member value "statuses");
  for_of (array_elems (js_or statuses (JArr [])))
    (fun status =>
       id ← lift (member status "id");
       lift (ToString id);;
       st ← lift (member status "status");
       lift (ToString st);;
       mret tt).

Definition handleErrors (value : jval) : M unit :=
  errors ← lift (member value "errors");
  for_of (if is_array errors then array_elems errors else [errors])
    (fun error =>
       code ← lift (member error "code");
       lift (ToString code);;
       title ← lift (member error "title");
       lift (ToString title);;
       message ← lift (member error "message");
       lift (ToString message);;
       mret tt).

Definition EVENT_RECEIVED : response :=
  mkResponse 200 (Sent (JStr "EVENT_RECEIVED")).

Definition handleWebhook (req : request) : M response :=
  try_catch
    (let entryList := opt_member (body req) "entry" in
     if negb (is_array entryList) then mret EVENT_RECEIVED
     else
       for_of (array_elems entryList)
         (fun entry =>
            let changes := opt_member entry "changes" in
            if negb (is_array changes) then mret tt
            else
              for_of (array_elems changes)
                (fun change =>
                   let value := opt_member change "value" in
                   if negb (truthy value) then mret tt
                   else
                     messages ← lift (member value "messages");
                     statuses ← lift (member value "statuses");
                     errors ← lift (member value "errors");
                     if is_array messages then handleIncomingMessages value
                     else if is_array statuses then handleStatusUpdates value
                     else if truthy errors then handleErrors value
                     else mret tt));;
       mret EVENT_RECEIVED)
    (fun error => mret EVENT_RECEIVED).

End WithEnv.
End WebhookController.

(** ** A concrete environment and two concrete worlds, for the examples *)

(** The text [{"name":"John"}]. *)
Definition john_json : string :=
  "{" +:+ dq +:+ "name" +:+ dq +:+ ":" +:+ dq +:+ "John" +:+ dq +:+ "}".

Definition demo_env : Env :=
  {| date_now := fun n => 1705312800000 + Z.of_nat n;
     to_iso := fun ms => "iso:" +:+ pretty ms;
     to_locale_date := fun ms => "15/1/2024";
     random36 := fun n => "r" +:+ pretty n;
     random1000 := fun n => Z.of_nat n mod 1000;
     json_parse := fun s =>
       if String.eqb s "{}" then Some (JObj ∅)
       else if String.eqb s john_json
            then Some (JObj (obj [ ("name", JStr "John") ]))
            else None;
     gateway := fun _ _ _ => JObj (obj [ ("messaging_product", JStr "whatsapp") ]);
     VERIFY_TOKEN := Some "my_super_secret_token_12345";
     BASE_URL := None;
     WHATSAPP_FLOW_ID_8A := None;
     WHATSAPP_FLOW_ID_712 := None;
     WHATSAPP_FLOW_ID_FERFAR := None;
     WHATSAPP_FLOW_ID_PROPERTY := None |}.

Definition empty_world : World := mkWorld [] [] [] [] 0.

(** One user who chose the 8A form, submitted it and has not paid yet. *)
Definition pending_order : record :=
  obj [ ("id", JStr "order_1705312800000_abc123");
        ("orderId", JStr "ORD_1");
        ("whatsappId", JStr "919876543210");
        ("serviceType", JStr "8A Form");
        ("userData", JObj (obj [ ("name", JStr "John") ]));
        ("amount", JNum 500);
        ("status", JStr "pending");
        ("paymentStatus", JStr "pending") ].

Definition awaiting_payment_session : record :=
  obj [ ("id", JStr "session_1705312800000_abc123");
        ("whatsappId", JStr "919876543210");
        ("step", JStr "awaiting_payment");
        ("selectedService", JStr "8a_service");
        ("serviceName", JStr "8A Form");
        ("orderId", JStr "ORD_1") ].

Definition pending_world : World :=
  mkWorld [ obj [ ("whatsappId", JStr "919876543210") ] ]
          [ pending_order ] [ awaiting_payment_session ] [] 7.

(** The same user after a successful payment. *)
Definition completed_order : record :=
  <["paymentId" := JStr "pay_1"]>
    (<["paymentStatus" := JStr "captured"]>
       (<["status" := JStr "completed"]> pending_order)).

Definition completed_world : World :=
  mkWorld [ obj [ ("whatsappId", JStr "919876543210") ] ]
          [ completed_order ] [ awaiting_payment_session ] [] 7.

(** ** Vocabulary of the statements *)

(** What [updateOrder], [updateSession] and [updateUser] put in place of
    the record they found, and what [createSession] appends. *)
Definition merged_at (env : Env) (w : World) (updates old : record) : record :=
  <["updatedAt" := JStr (to_iso env (date_now env (ticks w)))]> (updates ∪ old).

Definition created_at (env : Env) (w : World) (prefix : string) (data : record)
  : record :=
  <["updatedAt" := JStr (to_iso env (date_now env (S (S (S (ticks w))))))]>
    (<["createdAt" := JStr (to_iso env (date_now env (S (S (ticks w)))))]>
       (data ∪ {[ "id" := JStr (prefix +:+ pretty (date_now env (ticks w)) +:+
                                "_" +:+ random36 env (S (ticks w))) ]})).

(** The update [handleFailure] passes to [updateOrder]. *)
Definition failed_updates (env : Env) (w : World) : record :=
  obj [ ("status", JStr "failed"); ("paymentStatus", JStr "failed");
        ("failedAt", JStr (to_iso env (date_now env (ticks w)))) ].

(** The session [findSessionByWhatsappId] returns for user [u] has the
    given step, service identifier and service name. *)
Definition session_is (w : World) (u step selectedService serviceName : string)
  : Prop :=
  exists s : record,
    array_find "whatsappId" (JStr u) (sessions w) = Some s
    /\ s !! "step" = Some (JStr step)
    /\ s !! "selectedService" = Some (JStr selectedService)
    /\ s !! "serviceName" = Some (JStr serviceName).

(** The service-selection keywords of [handleMessage], each with the
    identifier and the name it passes to [triggerServiceFlow]. *)
Definition service_keywords : list (string * (string * string)) :=
  [ ("8a_service", ("8a_service", "8A Form"));
    ("8a", ("8a_service", "8A Form"));
    ("8a form", ("8a_service", "8A Form"));
    ("712_service", ("712_service", "7/12 Form"));
    ("712", ("712_service", "7/12 Form"));
    ("7/12", ("712_service", "7/12 Form"));
    ("ferfar_service", ("ferfar_service", "Ferfar"));
    ("ferfar", ("ferfar_service", "Ferfar"));
    ("property_card_service", ("property_card_service", "Property Card"));
    ("property", ("property_card_service", "Property Card"));
    ("property card", ("property_card_service", "Property Card")) ].

Definition verification_failed : response :=
  mkResponse 400
    (Json (JObj (obj [ ("error", JStr "Payment verification failed") ]))).

Definition status_of (r : outcome response) : option Z :=
  match r with Ret x => Some (status x) | Throw _ => None end.

(** The [status] field of the order an identifier resolves to. *)
Definition order_status (orderId : string) (w : World) : option jval :=
  match array_find "orderId" (JStr orderId) (orders w) with
  | Some o => o !! "status"
  | None => None
  end.

(** The [step] field of the session of a user. *)
Definition session_step (u : string) (w : World) : option jval :=
  match array_find "whatsappId" (JStr u) (sessions w) with
  | Some s => s !! "step"
  | None => None
  end.

(** A verifier that rejects every signature. *)
Definition reject_all : jval -> jval -> jval -> M bool :=
  fun _ _ _ => mret false.

(** A webhook delivery with one entry and one change-set carrying the
    given message records, and a text record. *)
Definition delivery (messages : list jval) : jval :=
  JObj (obj
    [ ("object", JStr "whatsapp_business_account");
      ("entry", JArr
         [ JObj (obj
             [ ("changes", JArr
                  [ JObj (obj
                      [ ("value", JObj (obj
                           [ ("messages", JArr messages) ])) ]) ]) ]) ]) ]).

Definition text_record (from text : string) : jval :=
  JObj (obj [ ("from", JStr from); ("type", JStr "text");
              ("text", JObj (obj [ ("body", JStr text) ])) ]).

Definition button_record (from id : string) : jval :=
  JObj (obj [ ("from", JStr from); ("type", JStr "interactive");
              ("interactive", JObj (obj
                 [ ("type", JStr "button_reply");
                   ("button_reply", JObj (obj [ ("id", JStr id) ])) ])) ]).

Definition form_record (from response_json : string) : jval :=
  JObj (obj [ ("from", JStr from); ("type", JStr "interactive");
              ("interactive", JObj (obj
                 [ ("type", JStr "nfm_reply");
                   ("nfm_reply", JObj (obj
                      [ ("response_json", JStr response_json) ])) ])) ]).

(** The field [k] of the order at position [i] of the orders file. *)
Definition order_field (i : nat) (k : string) (w : World) : option jval :=
  match orders w !! i with
  | Some o => o !! k
  | None => None
  end.

Import Runtime DatabaseService WhatsAppService MessageController
  PaymentController WebhookController.

(** ** Vocabulary of the further properties *)

(** What [createOrder] appends for [orderData] when [orderData.orderId]
    is truthy. *)
Definition created_order (env : Env) (w : World) (orderData : record) : record :=
  <["paymentStatus" := JStr "pending"]>
    (<["status" := JStr "pending"]>
       (<["updatedAt" := JStr (to_iso env (date_now env (S (S (S (ticks w))))))]>
          (<["createdAt" := JStr (to_iso env (date_now env (S (S (ticks w)))))]>
             (orderData ∪
                <["orderId" := prop orderData "orderId"]>
                  {[ "id" := JStr ("order_" +:+ pretty (date_now env (ticks w)) +:+
                                   "_" +:+ random36 env (S (ticks w))) ]})))).

(** The object [handleFlowCompletion] passes to [createOrder]. *)
Definition flow_order_data (env : Env) (w : World) (whatsappId flowData : jval)
    (session : record) : record :=
  obj [ ("orderId", JStr ("ORD_" +:+ pretty (date_now env (ticks w)) +:+ "_" +:+
                          random36 env (S (ticks w))));
        ("whatsappId", whatsappId);
        ("serviceType", prop session "serviceName");
        ("userData", flowData);
        ("amount", getServiceAmount (prop session "serviceName"));
        ("status", JStr "pending");
        ("paymentStatus", JStr "pending");
        ("createdAt", JStr (to_iso env (date_now env (S (S (ticks w)))))) ].

(** The update the non-mock path of [handleSuccess] passes to
    [updateOrder]. *)
Definition completed_updates (env : Env) (w : World) (paymentId : jval) : record :=
  obj [ ("status", JStr "completed");
        ("paymentStatus", JStr "captured");
        ("paymentId", js_or paymentId (JStr "razorpay_payment_id"));
        ("completedAt", JStr (to_iso env (date_now env (ticks w)))) ].

(** The greetings of [handleMessage], and its two fixed replies. *)
Definition greetings : list string := [ "hi"; "hello"; "start" ].

Definition help_text : string :=
  "I didn't understand that. Type " +:+ dq +:+ "hi" +:+ dq +:+
  " to see available services.".

Definition sorry_text : string :=
  "Sorry, I encountered an error. Please try again or send " +:+
  dq +:+ "hi" +:+ dq +:+ " to restart.".

(** The reply of [handleIncomingMessages] to a record of another type. *)
Definition unsupported_text : string :=
  "I can only process text messages and forms right now. Please send " +:+
  dq +:+ "hi" +:+ dq +:+ " to start.".

(** [v?.k1?.k2?. ...] *)
Definition at_path (v : jval) (ks : list string) : jval := fold_left opt_member ks v.

(** [v == null] *)
Definition nullish (v : jval) : bool :=
  match v with JUndef | JNull => true | _ => false end.

(** A message record that the log lines at the top of the loop of
    [handleIncomingMessages] get past: it is not [null] or [undefined],
    and its [from], [type], [id] and [timestamp] can be printed. *)
Definition loggable (message : jval) : bool :=
  negb (nullish message)
  && printable (opt_member message "from")
  && printable (opt_member message "type")
  && printable (opt_member message "id")
  && printable (opt_member message "timestamp").

(** The buttons of the welcome template, and those of
    [sendServiceButtons]: identifier and title. *)
Definition welcome_buttons : list (string * string) :=
  [ ("8a_service", "8A Form"); ("712_service", "7/12 Form");
    ("ferfar_service", "Ferfar"); ("property_card_service", "Property Card") ].

Definition service_buttons : list (string * string) :=
  [ ("service_8a", "8A Form"); ("service_712", "7/12 Form");
    ("service_ferfar", "Ferfar"); ("service_property", "Property Card") ].

(** The button object [sendInteractiveMessage] builds from [btn]. *)
Definition reply_of (btn : jval) : jval :=
  JObj (obj [ ("type", JStr "reply");
              ("reply", JObj (obj [ ("id", opt_member btn "id");
                                    ("title", opt_member btn "title") ])) ]).

(** The price table of [getServiceAmount], by service name. *)
Definition price_table : list (string * Z) :=
  [ ("8A Form", 500); ("7/12 Form", 300); ("Ferfar", 400);
    ("Property Card", 250) ].

(** The [value] objects of a webhook body, in the order [handleWebhook]
    visits them. *)
Definition values_of (body : jval) : list jval :=
  entry ← array_elems (opt_member body "entry");
  change ← array_elems (opt_member entry "changes");
  [ opt_member change "value" ].

(** A webhook delivery of two status updates, and a record that carries
    both a form reply and a button reply. *)
Definition status_delivery : jval :=
  JObj (obj
    [ ("object", JStr "whatsapp_business_account");
      ("entry", JArr
         [ JObj (obj
             [ ("changes", JArr
                  [ JObj (obj
                      [ ("value", JObj (obj
                           [ ("statuses", JArr
                                [ JObj (obj [ ("id", JStr "wamid.1");
                                              ("status", JStr "sent") ]);
                                  JObj (obj [ ("id", JStr "wamid.1");
                                              ("status", JStr "read") ]) ]) ])) ]) ]) ]) ]) ]).

Definition form_and_button_record : record :=
  obj [ ("from", JStr "919876543210"); ("type", JStr "interactive");
        ("interactive", JObj (obj
           [ ("button_reply", JObj (obj [ ("id", JStr "712_service") ]));
             ("nfm_reply", JObj (obj
                [ ("response_json", JStr john_json) ])) ])) ].

(** Unfolds the monad and the primitive effects, one layer of the program
    at a time. *)
Ltac run :=
  cbv beta iota zeta delta
    [mbind M_bind mret M_ret lift throw try_catch exec result
     readFile writeFile Date_now now_iso random_suffix random_below_1000
     content store tick record_send];
  cbn [fst snd users orders sessions outbox ticks ToString].

(** Membership in a list that is written out. *)
Ltac in_list :=
  repeat first [ apply list_elem_of_here | apply list_elem_of_further ].

(** ** Values, objects and arrays *)

Lemma truthy_nonempty (s : string) : s <> EmptyString -> truthy (JStr s) = true.
Proof. intros Hs. simpl. by destruct s. Qed.

Lemma member_truthy (v : jval) k :
  truthy v = true -> member v k = Ret (opt_member v k).
Proof. unfold opt_member. by destruct v. Qed.

Lemma member_not_nullish (v : jval) k :
  nullish v = false -> member v k = Ret (opt_member v k).
Proof. unfold opt_member. by destruct v. Qed.

Lemma prop_own (o : record) k v : o !! k = Some v -> prop o k = v.
Proof. intros H. unfold prop. by rewrite H. Qed.

Lemma object_prototype_own (s : string) :
  s ∉ object_prototype_keys -> object_prototype s = JUndef.
Proof.
  intros Hs. unfold object_prototype.
  destruct (existsb (String.eqb s) object_prototype_keys) eqn:E; [|done].
  apply existsb_exists in E as (k & Hin & Heq).
  apply String.eqb_eq in Heq as <-. by apply list_elem_of_In in Hin.
Qed.

Lemma json_record_lookup (o : record) k :
  json_record o !! k = o !! k ≫= json_value.
Proof. apply lookup_omap. Qed.

Lemma keyed_lookup k (o : record) (s : string) :
  o !! k = Some (JStr s) -> keyed k (JStr s) o.
Proof.
  intros H. unfold keyed, prop. rewrite H. simpl. by apply bool_decide_eq_true.
Qed.

Section ArrayFacts.
Context (k : string) (Hk : object_prototype k = JUndef).

(** Writing a record to its file and reading it back does not change
    whether its key [k] equals a given string. *)
Lemma strict_eq_json_record (s : string) (o : record) :
  strict_eq (prop (json_record o) k) (JStr s) = strict_eq (prop o k) (JStr s).
Proof using Hk.
  unfold prop, json_record. rewrite lookup_omap.
  destruct (o !! k) as [v|]; [|done].
  destruct v as [| | | | | | |f]; simpl; try destruct (String.eqb f "__proto__");
    simpl; rewrite ?Hk; done.
Qed.

Lemma keyed_json_record (s : string) (o : record) :
  keyed k (JStr s) (json_record o) <-> keyed k (JStr s) o.
Proof using Hk. unfold keyed. by rewrite strict_eq_json_record. Qed.

Lemma list_find_json (s : string) (l : list record) :
  list_find (keyed k (JStr s)) (json_record <$> l)
  = prod_map id json_record <$> list_find (keyed k (JStr s)) l.
Proof using Hk.
  rewrite list_find_fmap. f_equal.
  apply list_find_ext. intros o. apply keyed_json_record.
Qed.

End ArrayFacts.

(** [l[i] = y] at the index [findIndex] returned, then [find] again. *)
Lemma list_find_update {A} (P : A -> Prop) `{!forall x, Decision (P x)}
    (l : list A) i x y :
  list_find P l = Some (i, x) -> P y -> list_find P (<[i:=y]> l) = Some (i, y).
Proof.
  intros [Hi [_ Hlt]]%list_find_Some Hy.
  apply list_find_Some. split; [|split; [done|]].
  - apply list_lookup_insert_eq. by eapply lookup_lt_Some.
  - intros j z Hj Hji. rewrite list_lookup_insert_ne in Hj by lia. eauto.
Qed.

(** [l.push(y)] when nothing matched before, then [find]. *)
Lemma list_find_push {A} (P : A -> Prop) `{!forall x, Decision (P x)}
    (l : list A) y :
  list_find P l = None -> P y -> list_find P (l ++ [y]) = Some (length l, y).
Proof.
  intros Hnone Hy. rewrite list_find_app_r by done.
  simpl. rewrite decide_True by done. simpl. done.
Qed.

Lemma array_find_updated k (s : string) (l : list record) i old new :
  object_prototype k = JUndef ->
  list_find (keyed k (JStr s)) l = Some (i, old) ->
  keyed k (JStr s) new ->
  array_find k (JStr s) (json_record <$> <[i := new]> l) = Some (json_record new).
Proof.
  intros Hk Hfind Hnew. unfold array_find.
  rewrite list_find_json by done.
  by erewrite list_find_update.
Qed.

Lemma array_find_pushed k (s : string) (l : list record) new :
  object_prototype k = JUndef ->
  list_find (keyed k (JStr s)) l = None ->
  keyed k (JStr s) new ->
  array_find k (JStr s) (json_record <$> (l ++ [new])) = Some (json_record new).
Proof.
  intros Hk Hfind Hnew. unfold array_find.
  rewrite list_find_json by done.
  by erewrite list_find_push.
Qed.

Lemma keyed_merged env w k (s : string) (updates old : record) :
  k <> "updatedAt" -> updates !! k = None ->
  keyed k (JStr s) old -> keyed k (JStr s) (merged_at env w updates old).
Proof.
  intros Hk Hupd. unfold keyed, prop, merged_at.
  rewrite lookup_insert_ne by congruence.
  rewrite lookup_union_r by done. done.
Qed.

(** ** What the database operations do to the world *)

Section RunLemmas.
Context (env : Env).

Lemma updateOrder_found orderId updates w i o :
  list_find (keyed "orderId" orderId) (orders w) = Some (i, o) ->
  updateOrder env orderId updates w
  = (Ret (Some (merged_at env w updates o)),
     mkWorld (users w)
             (json_record <$> <[i := merged_at env w updates o]> (orders w))
             (sessions w) (outbox w) (S (ticks w))).
Proof.
  intros Hfind. unfold updateOrder, array_findIndex. run.
  rewrite Hfind. simpl.
  apply list_find_Some in Hfind as [Hi _]. rewrite Hi. reflexivity.
Qed.

Lemma updateSession_found whatsappId updates w i o :
  list_find (keyed "whatsappId" whatsappId) (sessions w) = Some (i, o) ->
  updateSession env whatsappId updates w
  = (Ret (Some (merged_at env w updates o)),
     mkWorld (users w) (orders w)
             (json_record <$> <[i := merged_at env w updates o]> (sessions w))
             (outbox w) (S (ticks w))).
Proof.
  intros Hfind. unfold updateSession, array_findIndex. run.
  rewrite Hfind. simpl.
  apply list_find_Some in Hfind as [Hi _]. rewrite Hi. reflexivity.
Qed.

Lemma createOrUpdateSession_found whatsappId sessionData w i o :
  list_find (keyed "whatsappId" whatsappId) (sessions w) = Some (i, o) ->
  createOrUpdateSession env whatsappId sessionData w
  = (Ret (Some (merged_at env w sessionData o)),
     mkWorld (users w) (orders w)
             (json_record <$> <[i := merged_at env w sessionData o]> (sessions w))
             (outbox w) (S (ticks w))).
Proof.
  intros Hfind. unfold createOrUpdateSession, findSessionByWhatsappId, array_find.
  run. rewrite Hfind. simpl. by apply updateSession_found.
Qed.

Lemma createOrUpdateSession_missing whatsappId sessionData w :
  list_find (keyed "whatsappId" whatsappId) (sessions w) = None ->
  createOrUpdateSession env whatsappId sessionData w
  = (Ret (Some (created_at env w "session_" sessionData)),
     mkWorld (users w) (orders w)
             (json_record <$>
                (sessions w ++ [created_at env w "session_" sessionData]))
             (outbox w) (S (S (S (S (ticks w)))))).
Proof.
  intros Hfind. unfold createOrUpdateSession, findSessionByWhatsappId, array_find.
  run. rewrite Hfind. simpl. reflexivity.
Qed.

(** Whatever the sessions file holds, [createOrUpdateSession] returns and
    touches nothing but that file and the clock. *)
Lemma createOrUpdateSession_frame (w : World) (whatsappId : jval)
    (sessionData : record) :
  exists r w',
    createOrUpdateSession env whatsappId sessionData w = (Ret r, w')
    /\ users w' = users w /\ orders w' = orders w /\ outbox w' = outbox w.
Proof.
  destruct (list_find (keyed "whatsappId" whatsappId) (sessions w))
    as [[i old]|] eqn:Hfind.
  - erewrite createOrUpdateSession_found by eassumption. eauto 10.
  - erewrite createOrUpdateSession_missing by eassumption. eauto 10.
Qed.

(** [upsertUser] never returns [null], and touches only the users file. *)
Lemma upsertUser_total (w : World) (whatsappId : jval) (userData : record) :
  exists (r : record) (w' : World),
    upsertUser env whatsappId userData w = (Ret (Some r), w')
    /\ sessions w' = sessions w /\ orders w' = orders w /\ outbox w' = outbox w.
Proof.
  unfold upsertUser, findUserByWhatsappId, updateUser, createUser,
    array_find, array_findIndex.
  run.
  destruct (list_find (keyed "whatsappId" whatsappId) (users w))
    as [[i old]|] eqn:Hfind; simpl; run; rewrite ?Hfind; simpl; eauto 10.
Qed.

Lemma verifyPaymentSignature_accepts (orderId paymentId signature : jval) w :
  verifyPaymentSignature orderId paymentId signature w = (Ret true, w).
Proof. reflexivity. Qed.

End RunLemmas.

(** ** Start of a service flow *)

Lemma triggerServiceFlow_run env (w : World) (u serviceId serviceName : string) :
  exists w',
    triggerServiceFlow env (JStr u) serviceId serviceName w = (Ret tt, w')
    /\ session_is w' u "awaiting_flow_completion" serviceId serviceName
    /\ users w' = users w /\ orders w' = orders w.
Proof.
  unfold triggerServiceFlow, buildFlowMessage, sendMessage. run.
  destruct (list_find (keyed "whatsappId" (JStr u)) (sessions w))
    as [[i old]|] eqn:Hfind.
  - erewrite createOrUpdateSession_found by (cbn; eassumption). run.
    eexists. split; [reflexivity|]. cbn [users orders sessions]. split; [|done].
    eexists. split.
    + apply array_find_updated with (old := old); [done | done |].
      apply keyed_lookup. unfold merged_at, obj. simpl. by simplify_map_eq.
    + rewrite !json_record_lookup. unfold merged_at, obj. simpl.
      by simplify_map_eq.
  - erewrite createOrUpdateSession_missing by (cbn; eassumption). run.
    eexists. split; [reflexivity|]. cbn [users orders sessions]. split; [|done].
    eexists. split.
    + apply array_find_pushed; [done | done |].
      apply keyed_lookup. unfold created_at, obj. simpl. by simplify_map_eq.
    + rewrite !json_record_lookup. unfold created_at, obj. simpl.
      by simplify_map_eq.
Qed.

Lemma handleMessage_selects env (w : World) (u text serviceId serviceName : string) :
  (trim (toLowerCase text), (serviceId, serviceName)) ∈ service_keywords ->
  session_is (exec (handleMessage env (JStr u) (JStr text)) w)
             u "awaiting_flow_completion" serviceId serviceName.
Proof.
  intros Hkw. unfold handleMessage. run.
  match goal with |- context [upsertUser env ?f ?d ?w0] =>
    destruct (upsertUser_total env w0 f d) as (r & w1 & -> & _) end.
  cbn [nullable member normalise].
  unfold service_keywords in Hkw.
  repeat (apply elem_of_cons in Hkw as [[= -> -> ->] | Hkw]);
    [ .. | by apply elem_of_nil in Hkw ].
  all: cbn [String.eqb Ascii.eqb Bool.eqb orb].
  all: match goal with |- context [triggerServiceFlow ?e (JStr ?v) ?a ?b ?w0] =>
         destruct (triggerServiceFlow_run e w0 v a b) as (w2 & -> & Hsess & _)
       end; exact Hsess.
Qed.

(** C1 (as amended): from any prior state, for every user, the
    start-service-flow procedure leaves the session that user resolves to
    with step "awaiting_flow_completion", selectedService the identifier
    just selected and serviceName that service's name; so does every
    message whose lower-cased, trimmed text is a service keyword; in
    particular "8a_service" from user "919876543210" gives
    {step: "awaiting_flow_completion", selectedService: "8a_service",
    serviceName: "8A Form"}. *)
Theorem start_service_flow_session env (w : World) (u : string) :
  (forall serviceId serviceName : string,
      session_is (exec (triggerServiceFlow env (JStr u) serviceId serviceName) w)
                 u "awaiting_flow_completion" serviceId serviceName)
  /\ (forall text serviceId serviceName : string,
         (trim (toLowerCase text), (serviceId, serviceName)) ∈ service_keywords ->
         session_is (exec (handleMessage env (JStr u) (JStr text)) w)
                    u "awaiting_flow_completion" serviceId serviceName)
  /\ session_is
       (exec (handleMessage env (JStr "919876543210") (JStr "8a_service")) w)
       "919876543210" "awaiting_flow_completion" "8a_service" "8A Form".
Proof.
  split; [|split].
  - intros serviceId serviceName.
    destruct (triggerServiceFlow_run env w u serviceId serviceName)
      as (w' & Hrun & Hsess & _).
    unfold exec. by rewrite Hrun.
  - intros text serviceId serviceName. apply handleMessage_selects.
  - apply handleMessage_selects. vm_compute. apply list_elem_of_here.
Qed.

Lemma start_service_flow_session_witness :
  (trim (toLowerCase " 8A Form "), ("8a_service", "8A Form")) ∈ service_keywords
  /\ session_is
       (exec (handleMessage demo_env (JStr "919876543210") (JStr " 8A Form "))
             pending_world)
       "919876543210" "awaiting_flow_completion" "8a_service" "8A Form".
Proof.
  assert (H : (trim (toLowerCase " 8A Form "), ("8a_service", "8A Form"))
              ∈ service_keywords).
  { vm_compute. do 2 apply list_elem_of_further. apply list_elem_of_here. }
  split; [exact H|].
  exact (proj1 (proj2 (start_service_flow_session demo_env pending_world
                         "919876543210")) _ _ _ H).
Defined.

(** C1, counterexample to its wording: the step the code stores is the
    string "awaiting_flow_completion", not "awaiting_form_completion". *)
Lemma start_service_flow_step_literal :
  let w' := exec (handleMessage demo_env (JStr "919876543210") (JStr "8a_service"))
                 empty_world in
  session_step "919876543210" w' = Some (JStr "awaiting_flow_completion")
  /\ ~ session_is w' "919876543210" "awaiting_form_completion"
                  "8a_service" "8A Form".
Proof.
  split; [vm_compute; reflexivity|].
  intros (s & Hfind & Hstep & _).
  assert (Hs : session_step "919876543210"
                 (exec (handleMessage demo_env (JStr "919876543210")
                          (JStr "8a_service")) empty_world)
               = Some (JStr "awaiting_form_completion")).
  { unfold session_step. by rewrite Hfind. }
  vm_compute in Hs. discriminate Hs.
Qed.

(** ** Payment success: the verification gate *)

(** C2 (as amended): for a payment-success invocation whose request
    carries a body ([req.body] is any value other than [undefined] and
    [null]), that is not a mock payment ([req.body.mock] is not the string
    "true"), whose order exists, and which carries both a non-empty
    paymentId and a non-empty signature, the verifier is consulted before
    the order is touched: when it rejects, the handler answers HTTP 400
    "Payment verification failed" and the whole store is left as it was;
    when it accepts, the order becomes completed/captured with that
    paymentId. *)
Theorem handleSuccess_verification_gate env
    (verify : jval -> jval -> jval -> M bool)
    (w : World) (q : record) (b : jval) (s p g : string) (o : record)
    (verdict : bool) :
  s <> EmptyString -> p <> EmptyString -> g <> EmptyString ->
  q !! "orderId" = Some (JStr s) ->
  q !! "paymentId" = Some (JStr p) ->
  q !! "signature" = Some (JStr g) ->
  nullish b = false ->
  strict_eq (opt_member b "mock") (JStr "true") = false ->
  array_find "orderId" (JStr s) (orders w) = Some o ->
  verify (JStr s) (JStr p) (JStr g) w = (Ret verdict, w) ->
  let run := handleSuccessWith env verify (mkRequest q b) in
  if verdict
  then exists o',
         array_find "orderId" (JStr s) (orders (exec run w)) = Some o'
         /\ o' !! "status" = Some (JStr "completed")
         /\ o' !! "paymentStatus" = Some (JStr "captured")
         /\ o' !! "paymentId" = Some (JStr p)
  else result run w = Ret verification_failed /\ exec run w = w.
Proof.
  intros Hs Hp Hg Hq Hpid Hsig Hbody Hmock Hfind Hverify run.
  unfold array_find in Hfind.
  destruct (list_find (keyed "orderId" (JStr s)) (orders w)) as [[i o0]|] eqn:Hlf;
    simplify_eq/=.
  unfold run, handleSuccessWith, findOrderByOrderId, array_find.
  cbn [query body]. rewrite (member_not_nullish _ _ Hbody).
  rewrite !(prop_own _ _ _ Hq), !(prop_own _ _ _ Hpid), !(prop_own _ _ _ Hsig).
  rewrite !truthy_nonempty by done. cbn [negb andb]. run.
  rewrite Hlf. cbn [fmap option_fmap option_map snd]. rewrite Hmock, Hverify.
  destruct verdict; cbn [negb]; run; [|done].
  erewrite updateOrder_found by (cbn; eassumption).
  unfold sendPaymentConfirmation, sendTextMessage, sendMessage. run.
  match goal with |- context [createOrUpdateSession env ?k ?d ?w0] =>
    destruct (createOrUpdateSession_frame env w0 k d) as (r & w1 & -> & _ & Ho & _)
  end.
  run. rewrite Ho. cbn [orders].
  eexists. split.
  - apply array_find_updated with (old := o); [done | done |].
    apply keyed_merged; [done | done |].
    by apply list_find_Some in Hlf as (_ & ? & _).
  - rewrite !json_record_lookup. unfold merged_at, obj, js_or.
    rewrite truthy_nonempty by done. simpl. by simplify_map_eq.
Qed.

Lemma handleSuccess_verification_gate_witness :
  let q := obj [ ("orderId", JStr "ORD_1"); ("paymentId", JStr "pay_1");
                 ("signature", JStr "forged") ] in
  let b := JObj (obj [ ("mock", JStr "false") ]) in
  let rejected := handleSuccessWith demo_env reject_all (mkRequest q b) in
  let accepted := handleSuccessWith demo_env verifyPaymentSignature
                    (mkRequest q b) in
  array_find "orderId" (JStr "ORD_1") (orders pending_world) = Some pending_order
  /\ nullish b = false
  /\ strict_eq (opt_member b "mock") (JStr "true") = false
  /\ reject_all (JStr "ORD_1") (JStr "pay_1") (JStr "forged") pending_world
     = (Ret false, pending_world)
  /\ verifyPaymentSignature (JStr "ORD_1") (JStr "pay_1") (JStr "forged")
       pending_world
     = (Ret true, pending_world)
  /\ (result rejected pending_world = Ret verification_failed
      /\ exec rejected pending_world = pending_world)
  /\ (exists o',
        array_find "orderId" (JStr "ORD_1") (orders (exec accepted pending_world))
        = Some o'
        /\ o' !! "status" = Some (JStr "completed")
        /\ o' !! "paymentStatus" = Some (JStr "captured")
        /\ o' !! "paymentId" = Some (JStr "pay_1")).
Proof.
  intros q b rejected accepted.
  assert (Hfind : array_find "orderId" (JStr "ORD_1") (orders pending_world)
                  = Some pending_order) by reflexivity.
  assert (Hq1 : q !! "orderId" = Some (JStr "ORD_1")) by reflexivity.
  assert (Hq2 : q !! "paymentId" = Some (JStr "pay_1")) by reflexivity.
  assert (Hq3 : q !! "signature" = Some (JStr "forged")) by reflexivity.
  assert (Hb : nullish b = false) by reflexivity.
  assert (Hmock : strict_eq (opt_member b "mock") (JStr "true") = false)
    by reflexivity.
  assert (H1 : "ORD_1" <> EmptyString) by discriminate.
  assert (H2 : "pay_1" <> EmptyString) by discriminate.
  assert (H3 : "forged" <> EmptyString) by discriminate.
  split; [exact Hfind|]. split; [exact Hb|]. split; [exact Hmock|].
  split; [reflexivity|]. split; [reflexivity|]. split.
  - exact (handleSuccess_verification_gate demo_env reject_all pending_world
             q b "ORD_1" "pay_1" "forged" pending_order false
             H1 H2 H3 Hq1 Hq2 Hq3 Hb Hmock Hfind eq_refl).
  - exact (handleSuccess_verification_gate demo_env verifyPaymentSignature
             pending_world q b "ORD_1" "pay_1" "forged" pending_order true
             H1 H2 H3 Hq1 Hq2 Hq3 Hb Hmock Hfind eq_refl).
Defined.

(** C2, counterexample to its wording: a payment-success request that is not
    a mock payment and carries no signature completes the order, with the
    shipped verifier and equally with one that rejects everything, so no
    verification has to pass. *)
Lemma handleSuccess_unsigned_request_completes :
  let req := mkRequest (obj [ ("orderId", JStr "ORD_1");
                              ("paymentId", JStr "pay_1") ]) (JObj ∅) in
  order_status "ORD_1" pending_world = Some (JStr "pending")
  /\ order_status "ORD_1" (exec (handleSuccess demo_env req) pending_world)
     = Some (JStr "completed")
  /\ order_status "ORD_1"
       (exec (handleSuccessWith demo_env reject_all req) pending_world)
     = Some (JStr "completed").
Proof. vm_compute. repeat split; reflexivity. Qed.

(** The shipped verifier accepts a forged signature. *)
Example handleSuccess_accepts_any_signature :
  let req := mkRequest (obj [ ("orderId", JStr "ORD_1");
                              ("paymentId", JStr "pay_1");
                              ("signature", JStr "forged") ]) (JObj ∅) in
  order_status "ORD_1" (exec (handleSuccess demo_env req) pending_world)
  = Some (JStr "completed").
Proof. vm_compute. reflexivity. Qed.

(** ** Payment success: the mock branch *)

Lemma handleSuccess_mock_run env (w : World) (q b : record)
    (s : string) (i : nat) (o : record) :
  s <> EmptyString ->
  q !! "orderId" = Some (JStr s) ->
  b !! "mock" = Some (JStr "true") ->
  list_find (keyed "orderId" (JStr s)) (orders w) = Some (i, o) ->
  exists (m : record) (text : string) (page : view) (n : nat),
    handleSuccess env (mkRequest q (JObj b)) w
    = (Ret (mkResponse 200 (Html page)),
       mkWorld (users w)
               (json_record <$> <[i := m]> (orders w))
               (sessions w)
               (outbox w ++ [(prop o "whatsappId", text_message text)])
               n)
    /\ m !! "status" = Some (JStr "completed")
    /\ m !! "paymentStatus" = Some (JStr "captured")
    /\ m !! "paymentId"
       = Some (js_or (prop q "paymentId")
                 (JStr ("mock_" +:+ pretty (date_now env (ticks w)))))
    /\ keyed "orderId" (JStr s) m.
Proof.
  intros Hs Hq Hmock Hfind.
  unfold handleSuccess, handleSuccessWith, findOrderByOrderId, array_find.
  cbn [query body member].
  rewrite !(prop_own _ _ _ Hq), !(prop_own _ _ _ Hmock), (truthy_nonempty _ Hs).
  cbn [negb]. run. rewrite Hfind. cbn [fmap option_fmap option_map snd].
  change (strict_eq (JStr "true") (JStr "true")) with true. cbv beta iota.
  unfold js_or.
  destruct (truthy (prop q "paymentId")); run;
    (erewrite updateOrder_found by (cbn; eassumption));
    unfold sendPaymentConfirmation, sendTextMessage, sendMessage; run;
    (do 4 eexists; split; [reflexivity|]);
    (split; [|split; [|split]]);
    try (unfold merged_at, obj; simpl; by simplify_map_eq);
    (apply keyed_merged; [done | done |];
     by apply list_find_Some in Hfind as (_ & ? & _)).
Qed.

(** C3, what the code does: on the mock branch the order becomes
    completed/captured and exactly one confirmation is sent to the order's
    owner, but the handler returns before it reaches the session update:
    the sessions file is left as it was. *)
Theorem handleSuccess_mock_skips_session env (w : World) (q b : record)
    (s : string) (o : record) :
  s <> EmptyString ->
  q !! "orderId" = Some (JStr s) ->
  b !! "mock" = Some (JStr "true") ->
  array_find "orderId" (JStr s) (orders w) = Some o ->
  let run := handleSuccess env (mkRequest q (JObj b)) in
  (exists o',
      array_find "orderId" (JStr s) (orders (exec run w)) = Some o'
      /\ o' !! "status" = Some (JStr "completed")
      /\ o' !! "paymentStatus" = Some (JStr "captured"))
  /\ (exists text,
        outbox (exec run w)
        = outbox w ++ [(prop o "whatsappId", text_message text)])
  /\ sessions (exec run w) = sessions w.
Proof.
  intros Hs Hq Hmock Hfind run. unfold array_find in Hfind.
  destruct (list_find (keyed "orderId" (JStr s)) (orders w)) as [[i o0]|] eqn:Hlf;
    simplify_eq/=.
  destruct (handleSuccess_mock_run env w q b s i o Hs Hq Hmock Hlf)
    as (m & text & page & n & Hrun & Hst & Hpay & _ & Hkey).
  unfold run, exec. rewrite Hrun. cbn [snd orders outbox sessions].
  split; [|eauto].
  exists (json_record m). split.
  - by apply array_find_updated with (old := o).
  - rewrite !json_record_lookup, Hst, Hpay. done.
Qed.

Lemma handleSuccess_mock_skips_session_witness :
  let q := obj [ ("orderId", JStr "ORD_1") ] in
  let b := obj [ ("mock", JStr "true") ] in
  let run := handleSuccess demo_env (mkRequest q (JObj b)) in
  array_find "orderId" (JStr "ORD_1") (orders pending_world) = Some pending_order
  /\ session_step "919876543210" pending_world = Some (JStr "awaiting_payment")
  /\ sessions (exec run pending_world) = sessions pending_world.
Proof.
  assert (Hfind : array_find "orderId" (JStr "ORD_1") (orders pending_world)
                  = Some pending_order) by reflexivity.
  split; [exact Hfind|]. split; [vm_compute; reflexivity|].
  apply (handleSuccess_mock_skips_session demo_env pending_world
           (obj [ ("orderId", JStr "ORD_1") ]) (obj [ ("mock", JStr "true") ])
           "ORD_1" pending_order);
    [discriminate | vm_compute; reflexivity | vm_compute; reflexivity | exact Hfind].
Defined.

(** The failing input of C3, evaluated: the order is completed, one
    message went out, the session still awaits payment. *)
Example handleSuccess_mock_session_stays :
  let req := mkRequest (obj [ ("orderId", JStr "ORD_1") ])
                       (JObj (obj [ ("mock", JStr "true") ])) in
  let w' := exec (handleSuccess demo_env req) pending_world in
  order_status "ORD_1" w' = Some (JStr "completed")
  /\ length (outbox w') = 1%nat
  /\ session_step "919876543210" w' = Some (JStr "awaiting_payment").
Proof. vm_compute. repeat split; reflexivity. Qed.

(** The sibling path does update the session: the same request with the
    flag in the query string, as the checkout form sends it, is not taken
    for a mock payment and ends with the session completed. *)
Example handleSuccess_flag_in_query :
  let req := mkRequest (obj [ ("orderId", JStr "ORD_1"); ("mock", JStr "true") ])
                       (JObj ∅) in
  let w' := exec (handleSuccess demo_env req) pending_world in
  order_status "ORD_1" w' = Some (JStr "completed")
  /\ length (outbox w') = 1%nat
  /\ session_step "919876543210" w' = Some (JStr "completed").
Proof. vm_compute. repeat split; reflexivity. Qed.

(** ** The webhook handler *)

Lemma then_ret_inv {A B} (m : M A) (b : B) (w : World) r w' :
  (m ;; mret b) w = (Ret r, w') -> r = b.
Proof.
  run. destruct (m w) as [[a|e] w1]; [|discriminate]. by intros [= <- _].
Qed.

(** C4: whatever the POST body is, well formed or not, and whether or
    not its processing throws, the handler answers HTTP 200 with the body
    "EVENT_RECEIVED"; when the body has no [entry] array the store, the
    outbox and the clock are exactly as before. *)
Theorem handleWebhook_acknowledges env (req : request) (w : World) :
  result (handleWebhook env req) w = Ret EVENT_RECEIVED
  /\ (is_array (opt_member (body req) "entry") = false ->
      exec (handleWebhook env req) w = w).
Proof.
  unfold handleWebhook.
  destruct (is_array (opt_member (body req) "entry")) eqn:Harr; cbn [negb].
  - split; [|discriminate].
    unfold result, try_catch.
    match goal with |- context [(?m ;; mret EVENT_RECEIVED) w] =>
      destruct ((m ;; mret EVENT_RECEIVED) w) as [[r|e] w'] eqn:Hrun
    end; [|reflexivity].
    apply then_ret_inv in Hrun as ->. reflexivity.
  - split; [reflexivity | intros _; reflexivity].
Qed.

Lemma handleWebhook_acknowledges_witness :
  let req := mkRequest ∅ (JObj (obj [ ("object", JStr "page") ])) in
  is_array (opt_member (body req) "entry") = false
  /\ result (handleWebhook demo_env req) pending_world = Ret EVENT_RECEIVED
  /\ exec (handleWebhook demo_env req) pending_world = pending_world.
Proof.
  assert (H : is_array (opt_member (JObj (obj [ ("object", JStr "page") ])) "entry")
              = false) by (vm_compute; reflexivity).
  split; [exact H|].
  pose proof (handleWebhook_acknowledges demo_env
                (mkRequest ∅ (JObj (obj [ ("object", JStr "page") ])))
                pending_world) as [Hres Hexec].
  split; [exact Hres | exact (Hexec H)].
Defined.

Example webhook_empty_object :
  handleWebhook demo_env (mkRequest ∅ (JObj ∅)) pending_world
  = (Ret EVENT_RECEIVED, pending_world).
Proof. vm_compute. reflexivity. Qed.

Example webhook_entry_not_a_list :
  handleWebhook demo_env
    (mkRequest ∅ (JObj (obj [ ("object", JStr "whatsapp_business_account");
                              ("entry", JStr "oops") ]))) pending_world
  = (Ret EVENT_RECEIVED, pending_world).
Proof. vm_compute. reflexivity. Qed.

Example webhook_no_body :
  handleWebhook demo_env (mkRequest ∅ JUndef) pending_world
  = (Ret EVENT_RECEIVED, pending_world).
Proof. vm_compute. reflexivity. Qed.

(** A [null] record makes the log line at the top of the loop throw
    outside the per-record [try]: the delivery is still acknowledged, and
    the record after it is not processed. *)
Example webhook_internal_error :
  let run := handleWebhook demo_env
               (mkRequest ∅ (delivery [ JNull; text_record "919876543210" "hi" ])) in
  result run empty_world = Ret EVENT_RECEIVED
  /\ outbox (exec run empty_world) = [].
Proof. vm_compute. split; reflexivity. Qed.

(** A greeting, with other case and padding: the welcome message goes
    out, no session and no order is created. *)
Example webhook_text_hi :
  let run := handleWebhook demo_env
               (mkRequest ∅ (delivery [ text_record "919876543210" " Hi " ])) in
  result run empty_world = Ret EVENT_RECEIVED
  /\ outbox (exec run empty_world) = [ (JStr "919876543210", welcomeMessage) ]
  /\ sessions (exec run empty_world) = []
  /\ orders (exec run empty_world) = [].
Proof. vm_compute. repeat split; reflexivity. Qed.

(** ** Payment success for an unknown order *)

(** The failure handler on a request whose orderId is falsy or matches no
    stored order: the failure page, and nothing but the clock has moved. *)
Lemma handleFailure_unknown env (w : World) (q : record) (b : jval) :
  truthy (prop q "orderId") = false
  \/ array_find "orderId" (prop q "orderId") (orders w) = None ->
  exists n,
    handleFailure env (mkRequest q b) w
    = (Ret (mkResponse 200 (Html FailurePage)),
       mkWorld (users w) (orders w) (sessions w) (outbox w) n).
Proof.
  intros Hcase. unfold handleFailure. cbn [query].
  destruct (truthy (prop q "orderId")) eqn:Ht.
  - destruct Hcase as [|Hnone]; [discriminate|].
    unfold updateOrder, findOrderByOrderId, array_findIndex. run.
    unfold array_find in Hnone.
    destruct (list_find (keyed "orderId" (prop q "orderId")) (orders w))
      as [[i o]|] eqn:Hlf; [discriminate|].
    simpl. run. unfold array_find. rewrite Hlf. by eexists.
  - run. exists (ticks w). by destruct w.
Qed.

(** Without a body the destructuring of [req.body] throws and the catch
    block runs the failure handler. *)
Lemma handleSuccess_without_body_run env
    (verify : jval -> jval -> jval -> M bool) (w : World) (q : record) (b : jval) :
  nullish b = true ->
  handleSuccessWith env verify (mkRequest q b) w
  = handleFailure env (mkRequest q b) w.
Proof.
  intros Hnull. unfold handleSuccessWith. cbn [body].
  destruct b; try discriminate Hnull; reflexivity.
Qed.




(** Without a parsed body the destructuring of [req.body] throws, and the
    catch-all hands an existing, pending order to the failure handler. *)
Example handleSuccess_without_body :
  let req := mkRequest (obj [ ("orderId", JStr "ORD_1") ]) JUndef in
  status_of (result (handleSuccess demo_env req) pending_world) = Some 200
  /\ order_status "ORD_1" (exec (handleSuccess demo_env req) pending_world)
     = Some (JStr "failed").
Proof. vm_compute. split; reflexivity. Qed.

(** ** Form completion without a session *)

(** C6: for a user with no stored session, the complete-flow procedure
    sends exactly one message, the "Session expired" text, to that user,
    and leaves orders, sessions and users as they were. *)
Theorem handleFlowCompletion_without_session env (w : World)
    (whatsappId flowToken flowData : jval) :
  array_find "whatsappId" whatsappId (sessions w) = None ->
  let run := handleFlowCompletion env whatsappId flowToken flowData in
  result run w = Ret tt
  /\ outbox (exec run w)
     = outbox w ++ [(whatsappId, text_message session_expired_text)]
  /\ orders (exec run w) = orders w
  /\ sessions (exec run w) = sessions w
  /\ users (exec run w) = users w.
Proof.
  intros Hnone. cbv zeta. unfold handleFlowCompletion, findSessionByWhatsappId.
  run. rewrite Hnone.
  unfold sendTextMessage, sendMessage. run.
  done.
Qed.

Lemma handleFlowCompletion_without_session_witness :
  let run := handleFlowCompletion demo_env (JStr "919000000000") (JStr "{}")
               (JObj (obj [ ("name", JStr "John") ])) in
  array_find "whatsappId" (JStr "919000000000") (sessions pending_world) = None
  /\ outbox (exec run pending_world)
     = [(JStr "919000000000", text_message session_expired_text)]
  /\ orders (exec run pending_world) = orders pending_world
  /\ sessions (exec run pending_world) = sessions pending_world.
Proof.
  assert (H : array_find "whatsappId" (JStr "919000000000")
                (sessions pending_world) = None) by (vm_compute; reflexivity).
  split; [exact H|].
  destruct (handleFlowCompletion_without_session demo_env pending_world
              (JStr "919000000000") (JStr "{}")
              (JObj (obj [ ("name", JStr "John") ])) H)
    as (_ & Hout & Hord & Hsess & _).
  split; [exact Hout | split; [exact Hord | exact Hsess]].
Defined.

(** ** The verification gate *)



(** With the secret unset, an absent token is strictly equal to it (both
    are [undefined]) and the challenge is granted. *)
Lemma verify_secret_unset env (q : record) (b : jval) (w : World) :
  VERIFY_TOKEN env = None ->
  q !! "hub.mode" = Some (JStr "subscribe") ->
  q !! "hub.verify_token" = None ->
  result (verify env (mkRequest q b)) w
  = Ret (mkResponse 200 (Sent (prop q "hub.challenge"))).
Proof.
  intros Hsecret Hmode Htoken. unfold verify, result. cbn [query].
  assert (Ht : prop q "hub.verify_token" = JUndef)
    by (unfold prop; by rewrite Htoken).
  rewrite (prop_own _ _ _ Hmode), Ht, Hsecret. reflexivity.
Qed.

Example verify_accepts :
  result (verify demo_env
            (mkRequest (obj [ ("hub.mode", JStr "subscribe");
                              ("hub.verify_token", JStr "my_super_secret_token_12345");
                              ("hub.challenge", JStr "123") ]) JUndef)) empty_world
  = Ret (mkResponse 200 (Sent (JStr "123"))).
Proof. vm_compute. reflexivity. Qed.

(** No case folding and no trimming of the token. *)
Example verify_case_sensitive :
  result (verify demo_env
            (mkRequest (obj [ ("hub.mode", JStr "subscribe");
                              ("hub.verify_token", JStr "My_Super_Secret_Token_12345");
                              ("hub.challenge", JStr "123") ]) JUndef)) empty_world
  = Ret (mkResponse 403 (Sent (JStr "Forbidden"))).
Proof. vm_compute. reflexivity. Qed.

Example verify_no_trimming :
  result (verify demo_env
            (mkRequest (obj [ ("hub.mode", JStr "subscribe");
                              ("hub.verify_token", JStr " my_super_secret_token_12345");
                              ("hub.challenge", JStr "123") ]) JUndef)) empty_world
  = Ret (mkResponse 403 (Sent (JStr "Forbidden"))).
Proof. vm_compute. reflexivity. Qed.

(** ** The price table *)

Lemma getServiceAmount_prices :
  getServiceAmount (JStr "8A Form") = JNum 500
  /\ getServiceAmount (JStr "7/12 Form") = JNum 300
  /\ getServiceAmount (JStr "Ferfar") = JNum 400
  /\ getServiceAmount (JStr "Property Card") = JNum 250.
Proof. vm_compute. done. Qed.

(** A name that is neither in the table nor inherited gets the default. *)
Lemma getServiceAmount_default (s : string) :
  s ∉ ["8A Form"; "7/12 Form"; "Ferfar"; "Property Card"] ->
  s ∉ object_prototype_keys ->
  getServiceAmount (JStr s) = JNum 100.
Proof.
  intros Hown Hproto. unfold getServiceAmount, amounts, obj. simpl.
  unfold prop.
  rewrite !lookup_insert_ne, lookup_empty.
  2-5: intros <-; apply Hown; set_solver.
  by rewrite object_prototype_own.
Qed.

(** C8, what the code does at a name every object inherits: the lookup
    [amounts["constructor"]] finds the built-in on the prototype chain,
    which is truthy, so the function returns it instead of 100. *)
Theorem getServiceAmount_inherited_name :
  getServiceAmount (JStr "constructor") = JNative "constructor"
  /\ getServiceAmount (JStr "constructor") <> JNum 100
  /\ getServiceAmount (JStr "toString") = JNative "toString".
Proof.
  split; [vm_compute; reflexivity|].
  split; [vm_compute; discriminate | vm_compute; reflexivity].
Qed.

(** ** Payment failure *)

Lemma handleFailure_found env (w : World) (q : record) (b : jval)
    (s : string) (i : nat) (o : record) :
  s <> EmptyString ->
  q !! "orderId" = Some (JStr s) ->
  list_find (keyed "orderId" (JStr s)) (orders w) = Some (i, o) ->
  let m := merged_at env (tick w) (failed_updates env w) o in
  handleFailure env (mkRequest q b) w
  = (Ret (mkResponse 200 (Html FailurePage)),
     mkWorld (users w)
             (json_record <$> <[i := m]> (orders w))
             (sessions w)
             (outbox w ++
                [(prop (json_record m) "whatsappId",
                  text_message
                    ("Payment failed for order " +:+ s +:+
                     ". Please try again or contact support."))])
             (S (S (S (ticks w))))).
Proof.
  intros Hs Hq Hfind m. unfold handleFailure. cbn [query].
  rewrite !(prop_own _ _ _ Hq), (truthy_nonempty _ Hs). run.
  erewrite updateOrder_found by (cbn; eassumption).
  unfold findOrderByOrderId. run.
  erewrite array_find_updated; [| done | eassumption | ].
  2:{ apply keyed_merged; [done | done |].
      by apply list_find_Some in Hfind as (_ & ? & _). }
  unfold sendTextMessage, sendMessage. run.
  reflexivity.
Qed.

(** C9: whatever status the stored order has, completed and captured
    included, the payment-failure handler called with that order's
    orderId overwrites it to status failed and paymentStatus failed and
    answers with the failure page; nothing checks the current status. *)
Theorem handleFailure_overwrites env (w : World) (q : record) (b : jval)
    (s : string) (o : record) :
  s <> EmptyString ->
  q !! "orderId" = Some (JStr s) ->
  array_find "orderId" (JStr s) (orders w) = Some o ->
  let req := mkRequest q b in
  result (handleFailure env req) w = Ret (mkResponse 200 (Html FailurePage))
  /\ exists o',
       array_find "orderId" (JStr s) (orders (exec (handleFailure env req) w))
       = Some o'
       /\ o' !! "status" = Some (JStr "failed")
       /\ o' !! "paymentStatus" = Some (JStr "failed").
Proof.
  intros Hs Hq Hfind req. unfold array_find in Hfind.
  destruct (list_find (keyed "orderId" (JStr s)) (orders w)) as [[i o0]|] eqn:Hlf;
    simplify_eq/=.
  unfold result, exec, req. rewrite (handleFailure_found env w q b s i o) by done.
  cbn [fst snd orders]. split; [done|].
  eexists. split.
  - apply array_find_updated with (old := o); [done | done |].
    apply keyed_merged; [done | done |].
    by apply list_find_Some in Hlf as (_ & ? & _).
  - rewrite !json_record_lookup. unfold merged_at, failed_updates, obj.
    simpl. by simplify_map_eq.
Qed.

Lemma handleFailure_overwrites_witness :
  let req := mkRequest (obj [ ("orderId", JStr "ORD_1") ]) JUndef in
  array_find "orderId" (JStr "ORD_1") (orders completed_world) = Some completed_order
  /\ completed_order !! "status" = Some (JStr "completed")
  /\ completed_order !! "paymentStatus" = Some (JStr "captured")
  /\ exists o',
       array_find "orderId" (JStr "ORD_1")
         (orders (exec (handleFailure demo_env req) completed_world)) = Some o'
       /\ o' !! "status" = Some (JStr "failed")
       /\ o' !! "paymentStatus" = Some (JStr "failed").
Proof.
  assert (Hfind : array_find "orderId" (JStr "ORD_1") (orders completed_world)
                  = Some completed_order) by reflexivity.
  split; [exact Hfind|].
  split; [vm_compute; reflexivity|]. split; [vm_compute; reflexivity|].
  refine (proj2 (handleFailure_overwrites demo_env completed_world
                   (obj [ ("orderId", JStr "ORD_1") ]) JUndef "ORD_1"
                   completed_order _ _ Hfind));
    [discriminate | vm_compute; reflexivity].
Defined.

(** ** Order creation *)

(** C10: whatever fields the caller passes, the order [createOrder]
    returns has status "pending" and paymentStatus "pending", and its
    createdAt and updatedAt are two clock readings taken during the call;
    that order is what is appended to the orders file. *)
Theorem createOrder_defaults env (orderData : record) (w : World) :
  exists (o : record) (t1 t2 : nat),
    result (createOrder env orderData) w = Ret o
    /\ o !! "status" = Some (JStr "pending")
    /\ o !! "paymentStatus" = Some (JStr "pending")
    /\ (ticks w <= t1 < t2)%nat
    /\ (t2 < ticks (exec (createOrder env orderData) w))%nat
    /\ o !! "createdAt" = Some (JStr (to_iso env (date_now env t1)))
    /\ o !! "updatedAt" = Some (JStr (to_iso env (date_now env t2)))
    /\ orders (exec (createOrder env orderData) w)
       = json_record <$> (orders w ++ [o]).
Proof.
  destruct w as [us os ss ob t]. unfold createOrder.
  destruct (truthy (prop orderData "orderId")) eqn:Hid; run.
  - eexists _, (S (S t)), (S (S (S t))).
    split; [reflexivity|]. simplify_map_eq. repeat split; lia.
  - eexists _, (S (S (S (S t)))), (S (S (S (S (S t))))).
    split; [reflexivity|]. simplify_map_eq. repeat split; lia.
Qed.

(** The caller's own status, paymentStatus and timestamps are overridden. *)
Example createOrder_overrides_caller :
  let data := obj [ ("orderId", JStr "ORD_9"); ("status", JStr "completed");
                    ("paymentStatus", JStr "captured");
                    ("createdAt", JStr "1999-01-01T00:00:00.000Z");
                    ("updatedAt", JStr "1999-01-01T00:00:00.000Z") ] in
  match result (createOrder demo_env data) empty_world with
  | Ret o => (o !! "status", o !! "paymentStatus", o !! "createdAt", o !! "updatedAt")
  | Throw _ => (None, None, None, None)
  end
  = (Some (JStr "pending"), Some (JStr "pending"),
     Some (JStr (to_iso demo_env (date_now demo_env 2))),
     Some (JStr (to_iso demo_env (date_now demo_env 3)))).
Proof. vm_compute. reflexivity. Qed.

(** ** The whole conversation *)

(** A greeting, a button click and a form submission, delivered one
    after the other: the greeting creates neither session nor order; the
    click opens the session; the submission creates one pending order of
    amount 500, moves the session to awaiting_payment with that order's
    identifier, and sends two messages. *)
Example conversation :
  let post body w := exec (handleWebhook demo_env (mkRequest ∅ body)) w in
  let w1 := post (delivery [ text_record "919876543210" "hi" ]) empty_world in
  let w2 := post (delivery [ button_record "919876543210" "8a_service" ]) w1 in
  let w3 := post (delivery [ form_record "919876543210" john_json ]) w2 in
  (length (sessions w1), length (orders w1), length (outbox w1)) = (0, 0, 1)%nat
  /\ session_step "919876543210" w2 = Some (JStr "awaiting_flow_completion")
  /\ (length (orders w2), length (outbox w2)) = (0, 2)%nat
  /\ length (orders w3) = 1%nat
  /\ order_field 0 "amount" w3 = Some (JNum 500)
  /\ order_field 0 "status" w3 = Some (JStr "pending")
  /\ order_field 0 "userData" w3 = Some (JObj (obj [ ("name", JStr "John") ]))
  /\ session_step "919876543210" w3 = Some (JStr "awaiting_payment")
  /\ (match array_find "whatsappId" (JStr "919876543210") (sessions w3) with
      | Some s => s !! "orderId"
      | None => None
      end) = order_field 0 "orderId" w3
  /\ length (outbox w3) = 4%nat.
Proof. vm_compute. repeat split; reflexivity. Qed.

(** * Further properties of the code *)

(** ** Auxiliary lemmas *)

Lemma printable_returns (v : jval) :
  printable v = true -> exists s, ToString v = Ret s.
Proof. unfold printable. destruct (ToString v) as [s|e]; [by exists s | done]. Qed.


Lemma createOrder_with_id env (w : World) (orderData : record) :
  truthy (prop orderData "orderId") = true ->
  createOrder env orderData w
  = (Ret (created_order env w orderData),
     mkWorld (users w)
             (json_record <$> (orders w ++ [created_order env w orderData]))
             (sessions w) (outbox w) (S (S (S (S (ticks w)))))).
Proof.
  intros Hid. unfold createOrder. rewrite Hid. reflexivity.
Qed.

Lemma handleFlowCompletion_run env (w : World) (u : string)
    (flowToken flowData : jval) (i : nat) (session : record) :
  list_find (keyed "whatsappId" (JStr u)) (sessions w) = Some (i, session) ->
  let data := flow_order_data env w (JStr u) flowData session in
  let w3 := tick (tick (tick w)) in
  let order := created_order env w3 data in
  exists (s' : record) (m1 m2 : jval) (n : nat),
    handleFlowCompletion env (JStr u) flowToken flowData w
    = (Ret tt,
       mkWorld (users w)
               (json_record <$> (orders w ++ [order]))
               (json_record <$> <[i := s']> (sessions w))
               (outbox w ++ [(JStr u, m1); (JStr u, m2)])
               n)
    /\ keyed "whatsappId" (JStr u) s'
    /\ s' !! "step" = Some (JStr "awaiting_payment")
    /\ s' !! "orderId" = Some (prop data "orderId")
    /\ (forall k, k <> "step" -> k <> "orderId" -> k <> "updatedAt" ->
          s' !! k = session !! k).
Proof.
  intros Hfind data w3 order.
  unfold handleFlowCompletion, findSessionByWhatsappId, array_find. run.
  rewrite Hfind. cbn [fmap option_fmap option_map snd].
  fold (flow_order_data env w (JStr u) flowData session). fold data.
  rewrite createOrder_with_id by reflexivity.
  change (mkWorld (users w) (orders w) (sessions w) (outbox w) (S (S (S (ticks w)))))
    with w3. fold order.
  erewrite createOrUpdateSession_found by (cbn; eassumption).
  unfold sendPaymentLink, sendTextMessage, sendMessage. run.
  rewrite <- app_assoc. cbn [app].
  do 4 eexists. split; [reflexivity|].
  match goal with |- keyed _ _ ?m /\ _ => set (s' := m) end.
  assert (Hkeep : forall k, k <> "step" -> k <> "orderId" -> k <> "updatedAt" ->
                            s' !! k = session !! k).
  { intros k H1 H2 H3. unfold s', merged_at.
    rewrite lookup_insert_ne by done.
    rewrite lookup_union, !lookup_insert_ne by done.
    by destruct (session !! k). }
  split; [|split; [|split]]; [| | |exact Hkeep].
  - unfold keyed, prop. rewrite Hkeep by done.
    by apply list_find_Some in Hfind as (_ & ? & _).
  - unfold s', merged_at. rewrite lookup_insert_ne by done.
    apply lookup_union_Some_l. rewrite lookup_insert_ne by done.
    apply lookup_insert_eq.
  - unfold s', merged_at. rewrite lookup_insert_ne by done.
    apply lookup_union_Some_l. rewrite lookup_insert_eq. reflexivity.
Qed.

Lemma eqb_not_in (t k : string) (l : list string) :
  t ∉ l -> k ∈ l -> String.eqb t k = false.
Proof.
  intros Hn Hk. apply String.eqb_neq. intros ->. by apply Hn.
Qed.

Lemma handleMessage_unrecognised_run env (w : World) (from : jval) (text : string) :
  printable from = true ->
  trim (toLowerCase text) ∉ greetings ->
  trim (toLowerCase text) ∉ service_keywords.*1 ->
  exists w',
    handleMessage env from (JStr text) w = (Ret tt, w')
    /\ outbox w' = outbox w ++ [(from, text_message help_text)]
    /\ sessions w' = sessions w
    /\ orders w' = orders w.
Proof.
  intros Hfrom Hg Hk. destruct (printable_returns _ Hfrom) as [f Hf].
  unfold handleMessage. rewrite Hf. run.
  match goal with |- context [upsertUser env ?f ?d ?w0] =>
    destruct (upsertUser_total env w0 f d) as (r & w1 & -> & Hs & Ho & Hb) end.
  cbn [nullable member normalise]. run.
  rewrite !(eqb_not_in _ _ _ Hg) by in_list.
  rewrite !(eqb_not_in _ _ _ Hk) by (cbn; in_list).
  cbn [orb]. unfold sendTextMessage, sendMessage. run.
  rewrite Hs, Ho, Hb. eauto.
Qed.

Lemma not_in_by_compute (t : string) (l : list string) :
  forallb (fun k => negb (String.eqb t k)) l = true -> t ∉ l.
Proof.
  intros H Hin. apply forallb_forall with (x := t) in H.
  - by rewrite String.eqb_refl in H.
  - by apply list_elem_of_In.
Qed.

(** [upsertUser] appends exactly when the identifier was not found, and
    never removes a user. *)
Lemma upsertUser_length env (w : World) (whatsappId : jval) (userData : record) :
  length (users (exec (upsertUser env whatsappId userData) w))
  = (length (users w)
     + match array_find "whatsappId" whatsappId (users w) with
       | Some _ => 0
       | None => 1
       end)%nat.
Proof.
  unfold upsertUser, findUserByWhatsappId, updateUser, createUser,
    array_find, array_findIndex.
  run.
  destruct (list_find (keyed "whatsappId" whatsappId) (users w))
    as [[i old]|] eqn:Hfind; simpl; run; rewrite ?Hfind; simpl.
  - rewrite length_fmap, length_insert. lia.
  - rewrite length_fmap, length_app. simpl. lia.
Qed.

Lemma handleSuccess_real_run env (w : World) (q b : record)
    (s u : string) (i : nat) (o : record) :
  s <> EmptyString ->
  q !! "orderId" = Some (JStr s) ->
  strict_eq (prop b "mock") (JStr "true") = false ->
  list_find (keyed "orderId" (JStr s)) (orders w) = Some (i, o) ->
  o !! "whatsappId" = Some (JStr u) ->
  exists (m s' : record) (text : string) (ss : list record) (n : nat),
    handleSuccess env (mkRequest q (JObj b)) w
    = (Ret (mkResponse 200 (Html SuccessPage)),
       mkWorld (users w)
               (json_record <$> <[i := m]> (orders w))
               ss
               (outbox w ++ [(JStr u, text_message text)])
               n)
    /\ m = merged_at env (tick w) (completed_updates env w (prop q "paymentId")) o
    /\ array_find "whatsappId" (JStr u) ss = Some s'
    /\ s' !! "step" = Some (JStr "completed")
    /\ s' !! "orderId" = Some (JStr s)
    /\ length ss
       = (length (sessions w)
          + match array_find "whatsappId" (JStr u) (sessions w) with
            | Some _ => 0
            | None => 1
            end)%nat.
Proof.
  intros Hs Hq Hmock Hfind Hu.
  unfold handleSuccess, handleSuccessWith, findOrderByOrderId, array_find.
  cbn [query body member].
  rewrite !(prop_own _ _ _ Hq), (truthy_nonempty _ Hs).
  cbn [negb]. run. rewrite Hfind. cbn [fmap option_fmap option_map snd].
  rewrite Hmock.
  assert (Hv : forall w0 : World,
             (if truthy (prop q "paymentId") && truthy (prop q "signature")
              then verifyPaymentSignature (JStr s) (prop q "paymentId")
                     (prop q "signature")
              else mret true) w0 = (Ret true, w0)).
  { intros w0. by destruct (_ && _). }
  rewrite Hv. cbn [negb]. run.
  erewrite updateOrder_found by (cbn; eassumption).
  unfold sendPaymentConfirmation, sendTextMessage, sendMessage. run.
  rewrite !(prop_own _ _ _ Hu).
  destruct (list_find (keyed "whatsappId" (JStr u)) (sessions w))
    as [[j old]|] eqn:Hsess.
  - erewrite createOrUpdateSession_found by (cbn; eassumption). run.
    do 5 eexists. split; [reflexivity|]. split; [reflexivity|].
    split; [|split; [|split]].
    + apply array_find_updated with (old := old); [done | done |].
      apply keyed_lookup. unfold merged_at, obj. simpl. by simplify_map_eq.
    + rewrite json_record_lookup. unfold merged_at, obj. simpl. by simplify_map_eq.
    + rewrite json_record_lookup. unfold merged_at, obj. simpl. by simplify_map_eq.
    + rewrite length_fmap, length_insert. cbn. lia.
  - erewrite createOrUpdateSession_missing by (cbn; eassumption). run.
    do 5 eexists. split; [reflexivity|]. split; [reflexivity|].
    split; [|split; [|split]].
    + apply array_find_pushed; [done | done |].
      apply keyed_lookup. unfold created_at, obj. simpl. by simplify_map_eq.
    + rewrite json_record_lookup. unfold created_at, obj. simpl. by simplify_map_eq.
    + rewrite json_record_lookup. unfold created_at, obj. simpl. by simplify_map_eq.
    + rewrite length_fmap, length_app. cbn. lia.
Qed.

Lemma merged_completed_fields env w pid (o : record) (s u : string) :
  keyed "orderId" (JStr s) o ->
  o !! "whatsappId" = Some (JStr u) ->
  let m := merged_at env (tick w) (completed_updates env w pid) o in
  keyed "orderId" (JStr s) m
  /\ m !! "whatsappId" = Some (JStr u)
  /\ m !! "status" = Some (JStr "completed")
  /\ m !! "paymentStatus" = Some (JStr "captured").
Proof.
  intros Hk Hu m. split; [by apply keyed_merged|].
  unfold m, merged_at, completed_updates, obj. simpl.
  split; [|by simplify_map_eq].
  rewrite lookup_insert_ne by done. by rewrite lookup_union_r.
Qed.

Lemma filter_json_length k (s : string) (l : list record) :
  object_prototype k = JUndef ->
  length (filter (keyed k (JStr s)) (json_record <$> l))
  = length (filter (keyed k (JStr s)) l).
Proof.
  intros Hk. induction l as [|x l IH]; [done|].
  rewrite fmap_cons, !filter_cons.
  destruct (decide (keyed k (JStr s) (json_record x))) as [H|H];
    destruct (decide (keyed k (JStr s) x)) as [H'|H']; simpl; try lia.
  - exfalso. apply H'. by apply (keyed_json_record k Hk).
  - exfalso. apply H. by apply (keyed_json_record k Hk).
Qed.

Lemma for_of_frame {A} (body : A -> M unit) (l : list A) :
  Forall (fun x => forall w, snd (body x w) = w) l ->
  forall w, snd (for_of l body w) = w.
Proof.
  induction 1 as [|x l Hx _ IH]; intros w; [done|].
  cbn [for_of]. run. specialize (Hx w).
  destruct (body x w) as [[[]|e] w']; simpl in Hx; subst; [apply IH | done].
Qed.

Lemma handleStatusUpdates_frame value w : snd (handleStatusUpdates value w) = w.
Proof.
  unfold handleStatusUpdates. run.
  destruct (member value "statuses") as [statuses|e]; [|done].
  apply for_of_frame. apply Forall_forall. intros status _ w0.
  destruct (member status "id") as [id|]; [|done].
  destruct (ToString id); [|done].
  destruct (member status "status") as [st|]; [|done].
  by destruct (ToString st).
Qed.

Lemma handleErrors_frame value w : snd (handleErrors value w) = w.
Proof.
  unfold handleErrors. run.
  destruct (member value "errors") as [errors|e]; [|done].
  apply for_of_frame. apply Forall_forall. intros error _ w0.
  destruct (member error "code") as [code|]; [|done].
  destruct (ToString code); [|done].
  destruct (member error "title") as [title|]; [|done].
  destruct (ToString title); [|done].
  destruct (member error "message") as [message|]; [|done].
  by destruct (ToString message).
Qed.

Lemma try_then_ret {A B} (m : M A) (b : B) w :
  snd (m w) = w -> try_catch (m ;; mret b) (fun _ => mret b) w = (Ret b, w).
Proof.
  intros H. unfold try_catch. run.
  destruct (m w) as [[a|e] w']; simpl in H; by subst.
Qed.

Lemma for_of_returns {A} (body : A -> M unit) (l : list A) :
  Forall (fun x => forall w, exists w', body x w = (Ret tt, w')) l ->
  forall w, exists w', for_of l body w = (Ret tt, w').
Proof.
  induction 1 as [|x l Hx _ IH]; intros w; [by eexists|].
  cbn [for_of]. run. destruct (Hx w) as [w1 ->]. apply IH.
Qed.

Lemma for_of_aborts {A} (body : A -> M unit) (l1 l2 : list A) (x : A) :
  (forall w, exists e, body x w = (Throw e, w)) ->
  forall w, exists e,
    for_of (l1 ++ x :: l2) body w = (Throw e, snd (for_of l1 body w)).
Proof.
  intros Hx. induction l1 as [|y l1 IH]; intros w.
  - cbn [app for_of]. run. destruct (Hx w) as [e ->]. by exists e.
  - cbn [app for_of]. run.
    destruct (body y w) as [[[]|e] w1]; [apply IH | by exists e].
Qed.

Lemma loggable_inv (x : jval) :
  loggable x = true ->
  nullish x = false
  /\ (exists t, ToString (opt_member x "from") = Ret t)
  /\ (exists t, ToString (opt_member x "type") = Ret t)
  /\ (exists t, ToString (opt_member x "id") = Ret t)
  /\ (exists t, ToString (opt_member x "timestamp") = Ret t).
Proof.
  unfold loggable. rewrite !andb_true_iff, negb_true_iff.
  intros [[[[Hn Hf] Ht] Hi] Hs].
  repeat split; [done | by apply printable_returns ..].
Qed.

(** The loop of [handleIncomingMessages]: one body for every [value],
    which returns on every record that gets past the log lines and
    throws, before doing anything, on one that is [null] or
    [undefined]. *)
Lemma handleIncomingMessages_loop env :
  exists body : jval -> M unit,
    (forall (v : record) msgs w,
        prop v "messages" = JArr msgs ->
        handleIncomingMessages env (JObj v) w = for_of msgs body w)
    /\ (forall x, loggable x = true ->
                  forall w, exists w', body x w = (Ret tt, w'))
    /\ (forall x, nullish x = true ->
                  forall w, exists e, body x w = (Throw e, w)).
Proof.
  eexists. split; [|split].
  - intros v msgs w Hmsgs. unfold handleIncomingMessages.
    cbn [member]. rewrite Hmsgs.
    change (lift (Ret (JArr msgs)) ≫= ?f) with (f (JArr msgs)).
    cbv beta. cbn [js_or truthy array_elems]. reflexivity.
  - intros x Hx w. cbv beta.
    destruct (loggable_inv x Hx) as (Hn & [f Hf] & [t Ht] & [i Hi] & [s Hs]).
    rewrite !(member_not_nullish _ _ Hn). run. rewrite Hf, Ht, Hi, Hs.
    match goal with |- context [match ?m w with _ => _ end] =>
      destruct (m w) as [[[]|e] w1] end; by eexists.
  - intros x Hx w. cbv beta. destruct x; try discriminate Hx; by eexists.
Qed.

Lemma strict_eq_str_false (v : jval) (s : string) :
  v <> JStr s -> strict_eq v (JStr s) = false.
Proof.
  intros Hv. destruct v; try done. simpl. apply bool_decide_eq_false. congruence.
Qed.

(** [message.interactive || {}], then [.k1] and [?.k2], is the optional
    chain [message.interactive?.k1?.k2] for the three replies the
    controller reads. *)
Lemma interactive_path (m : record) (k1 k2 : string) :
  k1 ∈ [ "button_reply"; "list_reply"; "nfm_reply" ] ->
  exists x,
    member (js_or (prop m "interactive") (JObj ∅)) k1 = Ret x
    /\ opt_member x k2 = at_path (JObj m) [ "interactive"; k1; k2 ].
Proof.
  intros Hk. unfold at_path. cbn [fold_left].
  change (opt_member (JObj m) "interactive") with (prop m "interactive").
  assert (Hlen : String.eqb k1 "length" = false).
  { repeat (apply elem_of_cons in Hk as [-> | Hk]);
      [ .. | by apply elem_of_nil in Hk ]; reflexivity. }
  assert (Hproto : object_prototype k1 = JUndef).
  { repeat (apply elem_of_cons in Hk as [-> | Hk]);
      [ .. | by apply elem_of_nil in Hk ]; reflexivity. }
  unfold js_or, opt_member.
  destruct (prop m "interactive") as [| |[]|n|s|l|o|f]; cbn [truthy member];
    try (destruct (negb (n =? 0)));
    try (destruct (negb (String.eqb s EmptyString)));
    cbn [member]; unfold prop; rewrite ?lookup_empty, ?Hlen, ?Hproto;
    eexists; (split; [reflexivity|]); reflexivity.
Qed.

Lemma prefix_spec (t s : string) :
  String.prefix t s = true <-> exists b, s = t +:+ b.
Proof.
  revert s. induction t as [|c t IH]; intros s.
  - split; [intros _; by exists s | intros _; by destruct s].
  - destruct s as [|d s]; cbn [String.prefix].
    + split; [done | by intros [b Hb]].
    + destruct (ascii_dec c d) as [->|Hcd].
      * rewrite IH. split; intros [b Hb]; exists b.
        -- by rewrite Hb.
        -- by injection Hb.
      * split; [done|]. intros [b Hb]. injection Hb as Hd _. congruence.
Qed.

Lemma includes_spec (s t : string) :
  includes s t = true <-> exists a b, s = a +:+ t +:+ b.
Proof.
  induction s as [|c s IH].
  - cbn [includes]. rewrite orb_false_r, prefix_spec. split.
    + intros [b Hb]. by exists EmptyString, b.
    + intros (a & b & Hab). destruct a; [by exists b | discriminate].
  - cbn [includes]. rewrite orb_true_iff, prefix_spec, IH. split.
    + intros [[b Hb] | (a & b & Hab)].
      * by exists EmptyString, b.
      * exists (String c a), b. by rewrite Hab.
    + intros (a & b & Hab). destruct a as [|d a].
      * left. by exists b.
      * right. exists a, b. by injection Hab.
Qed.

Lemma flowData_keys (s : string) :
  s ∉ welcome_buttons.*1 -> flowData !! s = None.
Proof.
  intros Hs. unfold flowData, obj. simpl.
  rewrite !lookup_insert_ne, lookup_empty; [done|..];
    intros <-; apply Hs; cbn; in_list.
Qed.

Lemma service_keywords_priced (kw id name : string) :
  (kw, (id, name)) ∈ service_keywords ->
  exists price : Z,
    getServiceAmount (JStr name) = JNum price /\ (name, price) ∈ price_table.
Proof.
  intros Hkw. unfold service_keywords in Hkw.
  repeat (apply elem_of_cons in Hkw as [[= -> -> ->] | Hkw]);
    [ .. | by apply elem_of_nil in Hkw ];
    eexists; (split; [reflexivity|]); unfold price_table; in_list.
Qed.

Lemma map_M_pure {A B} (f : A -> M B) (g : A -> B) (l : list A) (w : World) :
  Forall (fun x => f x w = (Ret (g x), w)) l ->
  map_M f l w = (Ret (map g l), w).
Proof.
  induction 1 as [|x l Hx _ IH]; [done|].
  cbn [map_M map]. run. rewrite Hx, IH. done.
Qed.

Lemma map_M_throws {A B} (f : A -> M B) (l : list A) (w : World) :
  (forall x, (exists y, f x w = (Ret y, w)) \/ (exists e, f x w = (Throw e, w))) ->
  Exists (fun x => exists e, f x w = (Throw e, w)) l ->
  exists e, map_M f l w = (Throw e, w).
Proof.
  intros Hf. induction 1 as [x l [e He]|x l _ IH]; cbn [map_M]; run.
  - rewrite He. by exists e.
  - destruct (Hf x) as [[y ->]|[e ->]]; [|by exists e].
    destruct IH as [e ->]. by exists e.
Qed.

(** ** Properties *)

(** X1: when the user has a session, [handleFlowCompletion] returns
    normally and appends exactly one order: pending, unpaid, for that
    user, with the submitted form as userData, the session's serviceName
    as serviceType and [getServiceAmount] of that name as amount; the
    session moves to step awaiting_payment and takes the new order's
    identifier while keeping selectedService and serviceName; exactly two
    messages go out, both to that user; the users file is not touched. *)
Theorem handleFlowCompletion_creates_order env (w : World) (u : string)
    (flowToken flowData : jval) (session : record) :
  array_find "whatsappId" (JStr u) (sessions w) = Some session ->
  let run := handleFlowCompletion env (JStr u) flowToken flowData in
  exists (o s' : record) (oid : string) (m1 m2 : jval),
    result run w = Ret tt
    /\ orders (exec run w) = (json_record <$> orders w) ++ [o]
    /\ o !! "orderId" = Some (JStr oid)
    /\ o !! "whatsappId" = Some (JStr u)
    /\ o !! "status" = Some (JStr "pending")
    /\ o !! "paymentStatus" = Some (JStr "pending")
    /\ o !! "amount" = json_value (getServiceAmount (prop session "serviceName"))
    /\ o !! "serviceType" = json_value (prop session "serviceName")
    /\ o !! "userData" = json_value flowData
    /\ array_find "whatsappId" (JStr u) (sessions (exec run w)) = Some s'
    /\ s' !! "step" = Some (JStr "awaiting_payment")
    /\ s' !! "orderId" = Some (JStr oid)
    /\ s' !! "selectedService" = session !! "selectedService" ≫= json_value
    /\ s' !! "serviceName" = session !! "serviceName" ≫= json_value
    /\ outbox (exec run w) = outbox w ++ [(JStr u, m1); (JStr u, m2)]
    /\ users (exec run w) = users w.
Proof.
  intros Hfind run. unfold array_find in Hfind.
  destruct (list_find (keyed "whatsappId" (JStr u)) (sessions w))
    as [[i s0]|] eqn:Hlf; simplify_eq/=.
  destruct (handleFlowCompletion_run env w u flowToken flowData i session Hlf)
    as (s' & m1 & m2 & n & Hrun & Hkey & Hstep & Hoid & Hkeep).
  unfold run, result, exec. rewrite Hrun. cbn [fst snd orders sessions outbox users].
  eexists _, (json_record s'), _, m1, m2.
  split; [done|]. split; [by rewrite fmap_app|].
  rewrite !json_record_lookup.
  repeat split.
  - by apply array_find_updated with (old := session).
  - by rewrite Hstep.
  - by rewrite Hoid.
  - by rewrite Hkeep.
  - by rewrite Hkeep.
Qed.

Lemma handleFlowCompletion_creates_order_witness :
  let run := handleFlowCompletion demo_env (JStr "919876543210") (JStr john_json)
               (JObj (obj [ ("name", JStr "John") ])) in
  array_find "whatsappId" (JStr "919876543210") (sessions pending_world)
  = Some awaiting_payment_session
  /\ exists o : record,
       orders (exec run pending_world)
       = (json_record <$> orders pending_world) ++ [o]
       /\ o !! "status" = Some (JStr "pending")
       /\ o !! "amount" = Some (JNum 500)
       /\ session_step "919876543210" (exec run pending_world)
          = Some (JStr "awaiting_payment").
Proof.
  assert (H : array_find "whatsappId" (JStr "919876543210") (sessions pending_world)
              = Some awaiting_payment_session) by reflexivity.
  split; [exact H|].
  destruct (handleFlowCompletion_creates_order demo_env pending_world
              "919876543210" (JStr john_json)
              (JObj (obj [ ("name", JStr "John") ])) awaiting_payment_session H)
    as (o & s' & oid & m1 & m2 & _ & Ho & _ & _ & Hst & _ & Ham & _ & _
        & Hsess & Hstep & _).
  exists o. split; [exact Ho|]. split; [exact Hst|]. split; [exact Ham|].
  unfold session_step. rewrite Hsess. exact Hstep.
Defined.

(** X2: from a sender that can be printed (a string, as the platform
    delivers it, or any value whose conversion to a string returns), a
    text that is "hi", "hello" or "start" after lower-casing and trimming
    is answered with exactly one message, the welcome template, addressed
    to the sender; no session and no order is created or changed. *)
Theorem handleMessage_greeting env (w : World) (from : jval) (text : string) :
  printable from = true ->
  trim (toLowerCase text) ∈ greetings ->
  let run := handleMessage env from (JStr text) in
  result run w = Ret tt
  /\ outbox (exec run w) = outbox w ++ [(from, welcomeMessage)]
  /\ sessions (exec run w) = sessions w
  /\ orders (exec run w) = orders w.
Proof.
  intros Hfrom Hg run. destruct (printable_returns _ Hfrom) as [f Hf].
  unfold run, handleMessage. rewrite Hf. run.
  match goal with |- context [upsertUser env ?f ?d ?w0] =>
    destruct (upsertUser_total env w0 f d) as (r & w1 & -> & Hs & Ho & Hb) end.
  cbn [nullable member normalise]. run.
  unfold greetings in Hg.
  repeat (apply elem_of_cons in Hg as [-> | Hg]); [ .. | by apply elem_of_nil in Hg ].
  all: cbn [String.eqb Ascii.eqb Bool.eqb orb]; unfold sendMessage; run;
    rewrite Hs, Ho, Hb; done.
Qed.

Lemma handleMessage_greeting_witness :
  let run := handleMessage demo_env (JStr "919876543210") (JStr " Hello ") in
  printable (JStr "919876543210") = true
  /\ trim (toLowerCase " Hello ") ∈ greetings
  /\ result run pending_world = Ret tt
  /\ outbox (exec run pending_world)
     = outbox pending_world ++ [(JStr "919876543210", welcomeMessage)]
  /\ sessions (exec run pending_world) = sessions pending_world
  /\ orders (exec run pending_world) = orders pending_world.
Proof.
  assert (H : trim (toLowerCase " Hello ") ∈ greetings)
    by (vm_compute; in_list).
  split; [reflexivity|]. split; [exact H|].
  exact (handleMessage_greeting demo_env pending_world (JStr "919876543210")
           " Hello " eq_refl H).
Defined.

(** X3: from a sender that can be printed, a text that is neither a
    greeting nor a service keyword after lower-casing and trimming is
    answered with exactly one message, the fixed help text; sessions and
    orders stay as they were. *)
Theorem handleMessage_unrecognised env (w : World) (from : jval) (text : string) :
  printable from = true ->
  trim (toLowerCase text) ∉ greetings ->
  trim (toLowerCase text) ∉ service_keywords.*1 ->
  let run := handleMessage env from (JStr text) in
  result run w = Ret tt
  /\ outbox (exec run w) = outbox w ++ [(from, text_message help_text)]
  /\ sessions (exec run w) = sessions w
  /\ orders (exec run w) = orders w.
Proof.
  intros Hfrom Hg Hk run.
  destruct (handleMessage_unrecognised_run env w from text Hfrom Hg Hk)
    as (w' & Hrun & Hout & Hs & Ho).
  unfold run, result, exec. rewrite Hrun. done.
Qed.

Lemma handleMessage_unrecognised_witness :
  let run := handleMessage demo_env (JStr "919876543210") (JStr "8a form please") in
  printable (JStr "919876543210") = true
  /\ (trim (toLowerCase "8a form please") ∉ greetings)
  /\ (trim (toLowerCase "8a form please") ∉ service_keywords.*1)
  /\ result run pending_world = Ret tt
  /\ outbox (exec run pending_world)
     = outbox pending_world ++ [(JStr "919876543210", text_message help_text)]
  /\ sessions (exec run pending_world) = sessions pending_world
  /\ orders (exec run pending_world) = orders pending_world.
Proof.
  assert (Hg : trim (toLowerCase "8a form please") ∉ greetings)
    by (apply not_in_by_compute; vm_compute; reflexivity).
  assert (Hk : trim (toLowerCase "8a form please") ∉ service_keywords.*1)
    by (apply not_in_by_compute; vm_compute; reflexivity).
  split; [reflexivity|]. split; [exact Hg|]. split; [exact Hk|].
  exact (handleMessage_unrecognised demo_env pending_world (JStr "919876543210")
           "8a form please" eq_refl Hg Hk).
Defined.

(** X4: when the sender and the message text can both be printed, a
    message text that is not a string (so that [toLowerCase] cannot be
    called on it) does not make [handleMessage] throw: the catch block
    sends the one apology text to the sender; sessions and orders stay as
    they were, and no user record is lost. *)
Theorem handleMessage_not_a_string env (w : World) (from messageText : jval) :
  printable from = true ->
  printable messageText = true ->
  (forall s, messageText <> JStr s) ->
  let run := handleMessage env from messageText in
  result run w = Ret tt
  /\ outbox (exec run w) = outbox w ++ [(from, text_message sorry_text)]
  /\ sessions (exec run w) = sessions w
  /\ orders (exec run w) = orders w
  /\ (length (users w) <= length (users (exec run w)))%nat.
Proof.
  intros Hfrom Htext Hns run.
  destruct (printable_returns _ Hfrom) as [f Hf].
  destruct (printable_returns _ Htext) as [t Ht].
  unfold run, handleMessage. rewrite Hf, Ht. run.
  match goal with |- context [upsertUser env ?f ?d ?w0] =>
    pose proof (upsertUser_length env w0 f d) as Hlen;
    destruct (upsertUser_total env w0 f d) as (r & w1 & Hup & Hs & Ho & Hb) end.
  unfold exec in Hlen. rewrite Hup in *. cbn [snd users] in Hlen.
  cbn [nullable member].
  assert (Hthrow : exists e, normalise messageText = Throw e).
  { destruct messageText; simpl; eauto. by destruct (Hns s). }
  destruct Hthrow as [e ->].
  unfold sendTextMessage, sendMessage. run.
  rewrite Hs, Ho, Hb. repeat split; try done. lia.
Qed.

Lemma handleMessage_not_a_string_witness :
  let run := handleMessage demo_env (JStr "919876543210") (JNum 712) in
  printable (JStr "919876543210") = true
  /\ printable (JNum 712) = true
  /\ (forall s, JNum 712 <> JStr s)
  /\ result run pending_world = Ret tt
  /\ outbox (exec run pending_world)
     = outbox pending_world ++ [(JStr "919876543210", text_message sorry_text)]
  /\ sessions (exec run pending_world) = sessions pending_world
  /\ orders (exec run pending_world) = orders pending_world
  /\ (length (users pending_world) <= length (users (exec run pending_world)))%nat.
Proof.
  assert (H : forall s, JNum 712 <> JStr s) by (intros s; discriminate).
  split; [reflexivity|]. split; [reflexivity|]. split; [exact H|].
  exact (handleMessage_not_a_string demo_env pending_world (JStr "919876543210")
           (JNum 712) eq_refl eq_refl H).
Defined.

(** The counterpart: a sender or a text that cannot be printed makes the
    call throw at the first log lines, before the [try], with nothing
    done. *)
Lemma handleMessage_unprintable env (w : World) (from messageText : jval) :
  printable from && printable messageText = false ->
  exists e, handleMessage env from messageText w = (Throw e, w).
Proof.
  intros Hp. unfold handleMessage, printable in *. run.
  destruct (ToString from) as [f|e]; [|by exists e].
  destruct (ToString messageText) as [t|e]; [discriminate | by exists e].
Qed.

(** A greeting followed by a no-break space (U+00A0) is a greeting. *)
Example handleMessage_greeting_nbsp :
  let text := "Hi" +:+ String "194" (String "160" EmptyString) in
  trim (toLowerCase text) = "hi"
  /\ outbox (exec (handleMessage demo_env (JStr "919876543210") (JStr text))
                  empty_world)
     = [ (JStr "919876543210", welcomeMessage) ].
Proof. vm_compute. split; reflexivity. Qed.

(** X5: the welcome template carries exactly the four buttons of
    [welcome_buttons], and the identifier of each of them, sent back as a
    message, opens that service's flow: the session ends at step
    awaiting_flow_completion with the button's identifier and title. *)
Theorem welcome_buttons_start_their_flow env (w : World) (u id title : string) :
  (id, title) ∈ welcome_buttons ->
  at_path welcomeMessage [ "interactive"; "action"; "buttons" ]
  = JArr (map (fun b => reply_button b.1 b.2) welcome_buttons)
  /\ session_is (exec (handleMessage env (JStr u) (JStr id)) w)
                u "awaiting_flow_completion" id title.
Proof.
  intros Hin. split; [reflexivity|].
  apply handleMessage_selects.
  unfold welcome_buttons in Hin.
  repeat (apply elem_of_cons in Hin as [[= -> ->] | Hin]);
    [ .. | by apply elem_of_nil in Hin ]; vm_compute; in_list.
Qed.

Lemma welcome_buttons_start_their_flow_witness :
  ("ferfar_service", "Ferfar") ∈ welcome_buttons
  /\ session_is
       (exec (handleMessage demo_env (JStr "919876543210") (JStr "ferfar_service"))
             pending_world)
       "919876543210" "awaiting_flow_completion" "ferfar_service" "Ferfar".
Proof.
  assert (H : ("ferfar_service", "Ferfar") ∈ welcome_buttons)
    by (unfold welcome_buttons; in_list).
  split; [exact H|].
  exact (proj2 (welcome_buttons_start_their_flow demo_env pending_world
                  "919876543210" "ferfar_service" "Ferfar" H)).
Defined.

(** X6: [sendServiceButtons] sends one interactive message with four
    buttons whose identifiers are service_8a, service_712, service_ferfar
    and service_property; none of these identifiers is a keyword of
    [handleMessage], so a click on any of them is answered with the help
    text and opens no session. *)
Theorem service_buttons_are_not_recognised env (w : World) (to : jval)
    (u id title : string) :
  (id, title) ∈ service_buttons ->
  (exists msg n,
      sendServiceButtons env to w
      = (Ret (gateway env (ticks w) to msg),
         mkWorld (users w) (orders w) (sessions w) (outbox w ++ [(to, msg)]) n)
      /\ at_path msg [ "interactive"; "action"; "buttons" ]
         = JArr (map (fun b => reply_button b.1 b.2) service_buttons))
  /\ (let run := handleMessage env (JStr u) (JStr id) in
      outbox (exec run w) = outbox w ++ [(JStr u, text_message help_text)]
      /\ sessions (exec run w) = sessions w).
Proof.
  intros Hin. split.
  - do 2 eexists. split; reflexivity.
  - assert (Hg : (trim (toLowerCase id) ∉ greetings)
                 /\ (trim (toLowerCase id) ∉ service_keywords.*1)).
    { unfold service_buttons in Hin.
      repeat (apply elem_of_cons in Hin as [[= -> ->] | Hin]);
        [ .. | by apply elem_of_nil in Hin ];
        split; apply not_in_by_compute; vm_compute; reflexivity. }
    destruct Hg as [Hg Hk].
    destruct (handleMessage_unrecognised_run env w (JStr u) id eq_refl Hg Hk)
      as (w' & Hrun & Hout & Hs & _).
    cbv zeta. unfold exec. rewrite Hrun. done.
Qed.

Lemma service_buttons_are_not_recognised_witness :
  let run := handleMessage demo_env (JStr "919876543210") (JStr "service_8a") in
  ("service_8a", "8A Form") ∈ service_buttons
  /\ outbox (exec run empty_world)
     = outbox empty_world ++ [(JStr "919876543210", text_message help_text)]
  /\ sessions (exec run empty_world) = sessions empty_world.
Proof.
  assert (H : ("service_8a", "8A Form") ∈ service_buttons)
    by (unfold service_buttons; in_list).
  split; [exact H|].
  exact (proj2 (service_buttons_are_not_recognised demo_env empty_world
                  (JStr "919876543210") "919876543210" "service_8a" "8A Form" H)).
Defined.


(** X8: selecting a service when the user already has a session
    rewrites that session in place: the number of sessions is unchanged,
    and every field other than whatsappId, step, selectedService,
    serviceName, createdAt and updatedAt keeps its value (as JSON writes
    it) - for instance the orderId of an earlier order. *)
Theorem triggerServiceFlow_keeps_other_fields env (w : World)
    (u serviceId serviceName : string) (old : record) (k : string) :
  array_find "whatsappId" (JStr u) (sessions w) = Some old ->
  k ∉ [ "whatsappId"; "step"; "selectedService"; "serviceName"; "createdAt";
        "updatedAt" ] ->
  let w' := exec (triggerServiceFlow env (JStr u) serviceId serviceName) w in
  length (sessions w') = length (sessions w)
  /\ exists s',
       array_find "whatsappId" (JStr u) (sessions w') = Some s'
       /\ s' !! k = old !! k ≫= json_value.
Proof.
  intros Hfind Hk. unfold array_find in Hfind.
  destruct (list_find (keyed "whatsappId" (JStr u)) (sessions w))
    as [[i o0]|] eqn:Hlf; simplify_eq/=.
  unfold triggerServiceFlow, buildFlowMessage, sendMessage. run.
  erewrite createOrUpdateSession_found by (cbn; eassumption). run.
  split; [by rewrite length_fmap, length_insert|].
  eexists. split.
  - apply array_find_updated with (old := old); [done | done |].
    apply keyed_lookup. unfold merged_at, obj. simpl. by simplify_map_eq.
  - rewrite json_record_lookup. f_equal. unfold merged_at, obj. simpl.
    rewrite lookup_insert_ne by (intros <-; apply Hk; in_list).
    rewrite lookup_union_r; [done|].
    rewrite !lookup_insert_ne by (intros <-; apply Hk; in_list).
    apply lookup_empty.
Qed.

Lemma triggerServiceFlow_keeps_other_fields_witness :
  let w' := exec (triggerServiceFlow demo_env (JStr "919876543210")
                    "712_service" "7/12 Form") pending_world in
  array_find "whatsappId" (JStr "919876543210") (sessions pending_world)
  = Some awaiting_payment_session
  /\ ("orderId" ∉ [ "whatsappId"; "step"; "selectedService"; "serviceName";
                    "createdAt"; "updatedAt" ])
  /\ length (sessions w') = length (sessions pending_world)
  /\ exists s',
       array_find "whatsappId" (JStr "919876543210") (sessions w') = Some s'
       /\ s' !! "orderId" = Some (JStr "ORD_1").
Proof.
  assert (H : array_find "whatsappId" (JStr "919876543210") (sessions pending_world)
              = Some awaiting_payment_session) by reflexivity.
  assert (Hk : "orderId" ∉ [ "whatsappId"; "step"; "selectedService"; "serviceName";
                             "createdAt"; "updatedAt" ])
    by (apply not_in_by_compute; reflexivity).
  split; [exact H|]. split; [exact Hk|].
  exact (triggerServiceFlow_keeps_other_fields demo_env pending_world
           "919876543210" "712_service" "7/12 Form" awaiting_payment_session
           "orderId" H Hk).
Defined.

(** X9: a success callback that carries a parsed body and is not a mock
    payment, for a stored order, answers with the success page, leaves the order the orderId
    resolves to with status completed, leaves its user's session at step
    completed with that orderId (creating the session when there was
    none, and only then), sends exactly one confirmation text to that
    user, and does not touch the users file. *)
Theorem handleSuccess_completes_order_and_session env (w : World) (q b : record)
    (s u : string) (o : record) :
  s <> EmptyString ->
  q !! "orderId" = Some (JStr s) ->
  strict_eq (prop b "mock") (JStr "true") = false ->
  array_find "orderId" (JStr s) (orders w) = Some o ->
  o !! "whatsappId" = Some (JStr u) ->
  let run := handleSuccess env (mkRequest q (JObj b)) in
  result run w = Ret (mkResponse 200 (Html SuccessPage))
  /\ order_status s (exec run w) = Some (JStr "completed")
  /\ (exists s',
        array_find "whatsappId" (JStr u) (sessions (exec run w)) = Some s'
        /\ s' !! "step" = Some (JStr "completed")
        /\ s' !! "orderId" = Some (JStr s))
  /\ length (sessions (exec run w))
     = (length (sessions w)
        + match array_find "whatsappId" (JStr u) (sessions w) with
          | Some _ => 0
          | None => 1
          end)%nat
  /\ (exists text,
        outbox (exec run w) = outbox w ++ [(JStr u, text_message text)])
  /\ users (exec run w) = users w.
Proof.
  intros Hs Hq Hmock Hfind Hu run. unfold array_find in Hfind.
  destruct (list_find (keyed "orderId" (JStr s)) (orders w)) as [[i o0]|] eqn:Hlf;
    simplify_eq/=.
  destruct (handleSuccess_real_run env w q b s u i o Hs Hq Hmock Hlf Hu)
    as (m & s' & text & ss & n & Hrun & -> & Hsess & Hstep & Hoid & Hlen).
  assert (Hko : keyed "orderId" (JStr s) o)
    by (by apply list_find_Some in Hlf as (_ & ? & _)).
  destruct (merged_completed_fields env w (prop q "paymentId") o s u Hko Hu)
    as (Hkm & _ & Hst & _).
  unfold run, result, exec. rewrite Hrun.
  cbn [fst snd orders sessions outbox users].
  split; [done|]. split.
  - unfold order_status; cbn [orders].
    erewrite array_find_updated by done.
    rewrite json_record_lookup, Hst. done.
  - eauto 10.
Qed.

Lemma handleSuccess_completes_order_and_session_witness :
  let q := obj [ ("orderId", JStr "ORD_1"); ("paymentId", JStr "pay_1") ] in
  let run := handleSuccess demo_env (mkRequest q (JObj ∅)) in
  "ORD_1" <> EmptyString
  /\ q !! "orderId" = Some (JStr "ORD_1")
  /\ strict_eq (prop ∅ "mock") (JStr "true") = false
  /\ array_find "orderId" (JStr "ORD_1") (orders pending_world) = Some pending_order
  /\ pending_order !! "whatsappId" = Some (JStr "919876543210")
  /\ result run pending_world = Ret (mkResponse 200 (Html SuccessPage))
  /\ order_status "ORD_1" (exec run pending_world) = Some (JStr "completed")
  /\ session_step "919876543210" (exec run pending_world) = Some (JStr "completed").
Proof.
  intros q run.
  assert (H1 : "ORD_1" <> EmptyString) by discriminate.
  assert (H2 : q !! "orderId" = Some (JStr "ORD_1")) by reflexivity.
  assert (H3 : strict_eq (prop ∅ "mock") (JStr "true") = false) by reflexivity.
  assert (H4 : array_find "orderId" (JStr "ORD_1") (orders pending_world)
               = Some pending_order) by reflexivity.
  assert (H5 : pending_order !! "whatsappId" = Some (JStr "919876543210"))
    by reflexivity.
  destruct (handleSuccess_completes_order_and_session demo_env pending_world q ∅
              "ORD_1" "919876543210" pending_order H1 H2 H3 H4 H5)
    as (Hres & Hord & (s' & Hsess & Hstep & _) & _).
  repeat (split; [assumption|]).
  unfold session_step, run. rewrite Hsess. exact Hstep.
Defined.

(** X10: the success callback does not look at the order's current
    status: a second identical callback (with a parsed body, not a mock
    payment) is accepted again, the order
    stays completed, no session is added, and the user gets a second
    confirmation message. *)
Theorem handleSuccess_twice env (w : World) (q b : record)
    (s u : string) (o : record) :
  s <> EmptyString ->
  q !! "orderId" = Some (JStr s) ->
  strict_eq (prop b "mock") (JStr "true") = false ->
  array_find "orderId" (JStr s) (orders w) = Some o ->
  o !! "whatsappId" = Some (JStr u) ->
  let run := handleSuccess env (mkRequest q (JObj b)) in
  let w1 := exec run w in
  let w2 := exec run w1 in
  result run w1 = Ret (mkResponse 200 (Html SuccessPage))
  /\ order_status s w2 = Some (JStr "completed")
  /\ length (sessions w2) = length (sessions w1)
  /\ exists t1 t2,
       outbox w2
       = outbox w ++ [(JStr u, text_message t1); (JStr u, text_message t2)].
Proof.
  intros Hs Hq Hmock Hfind Hu run w1 w2. unfold array_find in Hfind.
  destruct (list_find (keyed "orderId" (JStr s)) (orders w)) as [[i o0]|] eqn:Hlf;
    simplify_eq/=.
  destruct (handleSuccess_real_run env w q b s u i o Hs Hq Hmock Hlf Hu)
    as (m & s' & t1 & ss & n & Hrun & -> & Hsess & _ & _ & _).
  assert (Hko : keyed "orderId" (JStr s) o)
    by (by apply list_find_Some in Hlf as (_ & ? & _)).
  destruct (merged_completed_fields env w (prop q "paymentId") o s u Hko Hu)
    as (Hkm & Hmu & _ & _).
  set (m := merged_at env (tick w) (completed_updates env w (prop q "paymentId")) o)
    in *.
  assert (Hw1 : w1 = mkWorld (users w) (json_record <$> <[i := m]> (orders w)) ss
                       (outbox w ++ [(JStr u, text_message t1)]) n).
  { unfold w1, run, exec. by rewrite Hrun. }
  assert (Hlf1 : list_find (keyed "orderId" (JStr s)) (orders w1)
                 = Some (i, json_record m)).
  { rewrite Hw1. cbn [orders]. rewrite list_find_json by done.
    by erewrite list_find_update. }
  assert (Hu1 : json_record m !! "whatsappId" = Some (JStr u))
    by (by rewrite json_record_lookup, Hmu).
  destruct (handleSuccess_real_run env w1 q b s u i (json_record m)
              Hs Hq Hmock Hlf1 Hu1)
    as (m2 & s2 & t2 & ss2 & n2 & Hrun2 & -> & Hsess2 & _ & _ & Hlen2).
  assert (Hk1 : keyed "orderId" (JStr s) (json_record m))
    by (by apply keyed_json_record).
  destruct (merged_completed_fields env w1 (prop q "paymentId") (json_record m)
              s u Hk1 Hu1) as (Hkm2 & _ & Hst2 & _).
  unfold w2, result, exec, run. rewrite Hrun2.
  cbn [fst snd orders sessions outbox].
  split; [done|]. split; [|split].
  - unfold order_status; cbn [orders].
    erewrite array_find_updated by done.
    rewrite json_record_lookup, Hst2. done.
  - rewrite Hlen2. rewrite Hw1 at 2. cbn [sessions]. rewrite Hsess.
    rewrite Hw1. cbn [sessions]. lia.
  - exists t1, t2. rewrite Hw1. cbn [outbox]. by rewrite <- app_assoc.
Qed.

Lemma handleSuccess_twice_witness :
  let q := obj [ ("orderId", JStr "ORD_1") ] in
  let run := handleSuccess demo_env (mkRequest q (JObj ∅)) in
  let w1 := exec run pending_world in
  let w2 := exec run w1 in
  "ORD_1" <> EmptyString
  /\ q !! "orderId" = Some (JStr "ORD_1")
  /\ strict_eq (prop ∅ "mock") (JStr "true") = false
  /\ array_find "orderId" (JStr "ORD_1") (orders pending_world) = Some pending_order
  /\ pending_order !! "whatsappId" = Some (JStr "919876543210")
  /\ result run w1 = Ret (mkResponse 200 (Html SuccessPage))
  /\ order_status "ORD_1" w2 = Some (JStr "completed")
  /\ length (sessions w2) = length (sessions w1)
  /\ exists t1 t2,
       outbox w2
       = outbox pending_world
         ++ [(JStr "919876543210", text_message t1);
             (JStr "919876543210", text_message t2)].
Proof.
  intros q run w1 w2.
  assert (H1 : "ORD_1" <> EmptyString) by discriminate.
  assert (H2 : q !! "orderId" = Some (JStr "ORD_1")) by reflexivity.
  assert (H3 : strict_eq (prop ∅ "mock") (JStr "true") = false) by reflexivity.
  assert (H4 : array_find "orderId" (JStr "ORD_1") (orders pending_world)
               = Some pending_order) by reflexivity.
  assert (H5 : pending_order !! "whatsappId" = Some (JStr "919876543210"))
    by reflexivity.
  repeat (split; [assumption|]).
  exact (handleSuccess_twice demo_env pending_world q ∅ "ORD_1" "919876543210"
           pending_order H1 H2 H3 H4 H5).
Defined.

(** X11: when the request has no body ([req.body] is undefined or
    null) the destructuring of [mock] throws, and the catch block hands
    the request to [handleFailure]: for a stored order the answer is the
    failure page and the order ends with status failed, whatever the
    payment identifier and signature are and whatever the verifier would
    have said. *)
Theorem handleSuccess_without_body_fails_order env
    (verify : jval -> jval -> jval -> M bool)
    (w : World) (q : record) (b : jval) (s : string) (o : record) :
  nullish b = true ->
  s <> EmptyString ->
  q !! "orderId" = Some (JStr s) ->
  array_find "orderId" (JStr s) (orders w) = Some o ->
  let run := handleSuccessWith env verify (mkRequest q b) in
  run w = handleFailure env (mkRequest q b) w
  /\ result run w = Ret (mkResponse 200 (Html FailurePage))
  /\ order_status s (exec run w) = Some (JStr "failed").
Proof.
  intros Hnull Hs Hq Hfind run.
  assert (Heq : run w = handleFailure env (mkRequest q b) w)
    by (by apply handleSuccess_without_body_run).
  split; [exact Heq|]. unfold array_find in Hfind.
  destruct (list_find (keyed "orderId" (JStr s)) (orders w)) as [[i o0]|] eqn:Hlf;
    simplify_eq/=.
  unfold result, exec. rewrite Heq.
  rewrite (handleFailure_found env w q b s i o) by done.
  cbn [fst snd]. split; [done|].
  unfold order_status; cbn [orders].
  erewrite array_find_updated; [| done | eassumption |].
  - rewrite json_record_lookup. unfold merged_at, failed_updates, obj. simpl.
    by simplify_map_eq.
  - apply keyed_merged; [done | done |].
    by apply list_find_Some in Hlf as (_ & ? & _).
Qed.

Lemma handleSuccess_without_body_fails_order_witness :
  let q := obj [ ("orderId", JStr "ORD_1"); ("paymentId", JStr "pay_1");
                 ("signature", JStr "sig_1") ] in
  let run := handleSuccessWith demo_env verifyPaymentSignature
               (mkRequest q JUndef) in
  nullish JUndef = true
  /\ "ORD_1" <> EmptyString
  /\ q !! "orderId" = Some (JStr "ORD_1")
  /\ array_find "orderId" (JStr "ORD_1") (orders pending_world) = Some pending_order
  /\ run pending_world = handleFailure demo_env (mkRequest q JUndef) pending_world
  /\ result run pending_world = Ret (mkResponse 200 (Html FailurePage))
  /\ order_status "ORD_1" (exec run pending_world) = Some (JStr "failed").
Proof.
  intros q run.
  assert (H1 : nullish JUndef = true) by reflexivity.
  assert (H2 : "ORD_1" <> EmptyString) by discriminate.
  assert (H3 : q !! "orderId" = Some (JStr "ORD_1")) by reflexivity.
  assert (H4 : array_find "orderId" (JStr "ORD_1") (orders pending_world)
               = Some pending_order) by reflexivity.
  repeat (split; [assumption|]).
  exact (handleSuccess_without_body_fails_order demo_env
           verifyPaymentSignature pending_world q JUndef "ORD_1"
           pending_order H1 H2 H3 H4).
Defined.

(** X12: of the query string the success handler reads orderId,
    paymentId and signature only; any other parameter, a mock flag
    included, has no effect on the response or on the stored data. *)
Theorem handleSuccess_reads_three_parameters env
    (verify : jval -> jval -> jval -> M bool)
    (w : World) (q : record) (b : jval) (k : string) (v : jval) :
  k ∉ [ "orderId"; "paymentId"; "signature" ] ->
  handleSuccessWith env verify (mkRequest (<[k := v]> q) b) w
  = handleSuccessWith env verify (mkRequest q b) w.
Proof.
  intros Hk.
  assert (Hp : forall k', k' ∈ [ "orderId"; "paymentId"; "signature" ] ->
                          prop (<[k := v]> q) k' = prop q k').
  { intros k' Hk'. unfold prop. rewrite lookup_insert_ne; [done|].
    intros ->. by apply Hk. }
  unfold handleSuccessWith, handleFailure. cbn [query body].
  rewrite !Hp by in_list. reflexivity.
Qed.

Lemma handleSuccess_reads_three_parameters_witness :
  let q := obj [ ("orderId", JStr "ORD_1") ] in
  ("mock" ∉ [ "orderId"; "paymentId"; "signature" ])
  /\ handleSuccessWith demo_env verifyPaymentSignature
       (mkRequest (<["mock" := JStr "true"]> q) (JObj ∅)) pending_world
     = handleSuccessWith demo_env verifyPaymentSignature
         (mkRequest q (JObj ∅)) pending_world.
Proof.
  intros q.
  assert (H : "mock" ∉ [ "orderId"; "paymentId"; "signature" ])
    by (apply not_in_by_compute; reflexivity).
  split; [exact H|].
  exact (handleSuccess_reads_three_parameters demo_env
           verifyPaymentSignature pending_world q (JObj ∅)
           "mock" (JStr "true") H).
Defined.

(** X13: a failure callback without an orderId, or with one that
    matches no stored order, shows the failure page and changes nothing:
    users, orders, sessions and the outbox are as before. *)
Theorem handleFailure_without_order env (w : World) (q : record) (b : jval) :
  truthy (prop q "orderId") = false
  \/ array_find "orderId" (prop q "orderId") (orders w) = None ->
  let run := handleFailure env (mkRequest q b) in
  result run w = Ret (mkResponse 200 (Html FailurePage))
  /\ users (exec run w) = users w
  /\ orders (exec run w) = orders w
  /\ sessions (exec run w) = sessions w
  /\ outbox (exec run w) = outbox w.
Proof.
  intros Hcase run.
  destruct (handleFailure_unknown env w q b Hcase) as [n Hrun].
  unfold run, result, exec. rewrite Hrun. done.
Qed.

Lemma handleFailure_without_order_witness :
  let q := obj [ ("orderId", JStr "ORD_404") ] in
  let run := handleFailure demo_env (mkRequest q (JObj ∅)) in
  array_find "orderId" (prop q "orderId") (orders pending_world) = None
  /\ result run pending_world = Ret (mkResponse 200 (Html FailurePage))
  /\ users (exec run pending_world) = users pending_world
  /\ orders (exec run pending_world) = orders pending_world
  /\ sessions (exec run pending_world) = sessions pending_world
  /\ outbox (exec run pending_world) = outbox pending_world.
Proof.
  intros q run.
  assert (H : array_find "orderId" (prop q "orderId") (orders pending_world) = None)
    by reflexivity.
  split; [exact H|].
  exact (handleFailure_without_order demo_env pending_world q (JObj ∅)
           (or_intror H)).
Defined.

(** X14: [createPaymentLink] never changes the stored data or sends
    anything; it returns BASE_URL (default http://localhost:3000)
    followed by /payment/checkout?orderId= and the identifier when the
    order exists, and throws Error "Order not found" otherwise. *)
Theorem createPaymentLink_spec env (w : World) (orderId : jval) :
  exec (createPaymentLink env orderId) w = w
  /\ result (createPaymentLink env orderId) w
     = match array_find "orderId" orderId (orders w) with
       | Some _ =>
           Ret (env_or (BASE_URL env) "http://localhost:3000" +:+
                "/payment/checkout?orderId=" +:+ to_js_string orderId)
       | None => Throw (Error "Order not found")
       end.
Proof.
  unfold createPaymentLink, findOrderByOrderId. run.
  by destruct (array_find "orderId" orderId (orders w)).
Qed.

(** X15: [createOrder] never checks for an existing orderId: it always
    appends one order; a later lookup by that orderId returns the order
    that was already stored under it, if there was one, and the new order
    only otherwise (find returns the first match). *)
Theorem createOrder_then_find env (w : World) (orderData : record) (s : string) :
  s <> EmptyString ->
  orderData !! "orderId" = Some (JStr s) ->
  let run := createOrder env orderData in
  exists o,
    result run w = Ret o
    /\ length (orders (exec run w)) = S (length (orders w))
    /\ array_find "orderId" (JStr s) (orders (exec run w))
       = Some (json_record
                 (match array_find "orderId" (JStr s) (orders w) with
                  | Some old => old
                  | None => o
                  end)).
Proof.
  intros Hs Hid run.
  assert (Ht : truthy (prop orderData "orderId") = true).
  { rewrite (prop_own _ _ _ Hid). by apply truthy_nonempty. }
  unfold run, result, exec. rewrite createOrder_with_id by done.
  cbn [fst snd orders]. eexists. split; [reflexivity|].
  split; [rewrite length_fmap, length_app; simpl; lia|].
  unfold array_find at 2.
  destruct (list_find (keyed "orderId" (JStr s)) (orders w))
    as [[i old]|] eqn:Hlf; cbn [fmap option_fmap option_map snd].
  - unfold array_find. rewrite list_find_json by done.
    by erewrite list_find_app_l.
  - apply array_find_pushed; [done | done |].
    apply keyed_lookup. unfold created_order.
    rewrite !lookup_insert_ne by done.
    by apply lookup_union_Some_l.
Qed.

Lemma createOrder_then_find_witness :
  let data := obj [ ("orderId", JStr "ORD_1"); ("amount", JNum 1) ] in
  let run := createOrder demo_env data in
  "ORD_1" <> EmptyString
  /\ data !! "orderId" = Some (JStr "ORD_1")
  /\ length (orders (exec run pending_world)) = 2%nat
  /\ array_find "orderId" (JStr "ORD_1") (orders (exec run pending_world))
     = Some (json_record pending_order).
Proof.
  intros data run.
  assert (H1 : "ORD_1" <> EmptyString) by discriminate.
  assert (H2 : data !! "orderId" = Some (JStr "ORD_1")) by reflexivity.
  split; [exact H1|]. split; [exact H2|].
  destruct (createOrder_then_find demo_env pending_world data "ORD_1" H1 H2)
    as (o & _ & Hlen & Hfind).
  split; [exact Hlen | exact Hfind].
Defined.

(** X16: [createOrder] always returns an order with an orderId - the
    property the caller gave, whatever its value, even if it is falsy;
    and when the caller gave none, "ORD" followed by a clock reading and a
    random number below 1000, both taken during the call. *)
Theorem createOrder_orderId env (w : World) (orderData : record) :
  exists (o : record) (t : nat),
    result (createOrder env orderData) w = Ret o
    /\ (ticks w <= t)%nat
    /\ o !! "orderId"
       = Some (match orderData !! "orderId" with
               | Some v => v
               | None =>
                   JStr ("ORD" +:+ pretty (date_now env t) +:+
                         pretty (random1000 env (S t)))
               end).
Proof.
  destruct w as [us os ss ob t]. unfold createOrder.
  destruct (truthy (prop orderData "orderId")) eqn:Hid; run;
    eexists _, (S (S t)); (split; [reflexivity|]); (split; [lia|]);
    rewrite !lookup_insert_ne by done;
    unfold prop in *; destruct (orderData !! "orderId") as [v|] eqn:Hv.
  - by erewrite lookup_union_Some_l.
  - discriminate Hid.
  - by erewrite lookup_union_Some_l.
  - rewrite lookup_union_r by done. by rewrite lookup_insert_eq.
Qed.

(** X17: when the data names no other identifier, after [upsertUser]
    the user can be found by the identifier and carries every field of the
    data passed in (timestamps apart, values as JSON writes them); a record
    is appended exactly when the identifier was not stored yet, so the
    number of users never goes down. *)
Theorem upsertUser_then_find env (w : World) (u : string) (userData : record) :
  userData !! "whatsappId" = None \/ userData !! "whatsappId" = Some (JStr u) ->
  let run := upsertUser env (JStr u) userData in
  length (users (exec run w))
  = (length (users w)
     + match array_find "whatsappId" (JStr u) (users w) with
       | Some _ => 0
       | None => 1
       end)%nat
  /\ exists r,
       array_find "whatsappId" (JStr u) (users (exec run w)) = Some r
       /\ forall k v, userData !! k = Some v -> k <> "createdAt" ->
                      k <> "updatedAt" -> r !! k = json_value v.
Proof.
  intros Hdata run. split; [apply upsertUser_length|].
  unfold run, upsertUser, findUserByWhatsappId, updateUser, createUser,
    array_find, array_findIndex.
  run.
  destruct (list_find (keyed "whatsappId" (JStr u)) (users w))
    as [[i old]|] eqn:Hfind; simpl; run; rewrite ?Hfind; simpl.
  - pose proof Hfind as (Hi & Hold & _)%list_find_Some. rewrite Hi. simpl.
    match goal with |- context [<[i := ?m]> (users w)] => set (m0 := m) end.
    exists (json_record m0). split.
    + rewrite list_find_json by done.
      erewrite list_find_update; [reflexivity | eassumption |].
      unfold keyed, prop, m0. rewrite lookup_insert_ne by done.
      destruct Hdata as [Hd|Hd].
      * by rewrite lookup_union_r.
      * erewrite lookup_union_Some_l by done. simpl. by apply bool_decide_eq_true.
    + intros k v Hk _ Hu. rewrite json_record_lookup. unfold m0.
      rewrite lookup_insert_ne by done.
      by erewrite lookup_union_Some_l.
  - match goal with |- context [users w ++ [?m]] => set (m0 := m) end.
    exists (json_record m0). split.
    + rewrite list_find_json by done.
      erewrite list_find_push; [reflexivity | done |].
      unfold keyed, prop, m0. rewrite !lookup_insert_ne by done.
      destruct Hdata as [Hd|Hd].
      * rewrite <- (assoc_L (∪)).
        rewrite lookup_union_r by done.
        erewrite lookup_union_Some_l by apply lookup_singleton_eq.
        simpl. by apply bool_decide_eq_true.
      * erewrite lookup_union_Some_l by (by apply lookup_union_Some_l).
        simpl. by apply bool_decide_eq_true.
    + intros k v Hk Hc Hu. rewrite json_record_lookup. unfold m0.
      rewrite !lookup_insert_ne by done.
      by erewrite lookup_union_Some_l by (by apply lookup_union_Some_l).
Qed.

Lemma upsertUser_then_find_witness :
  let data := obj [ ("lastMessage", JStr "hi") ] in
  let run := upsertUser demo_env (JStr "919876543210") data in
  (data !! "whatsappId" = None
   \/ data !! "whatsappId" = Some (JStr "919876543210"))
  /\ length (users (exec run pending_world)) = 1%nat
  /\ exists r,
       array_find "whatsappId" (JStr "919876543210") (users (exec run pending_world))
       = Some r
       /\ r !! "lastMessage" = Some (JStr "hi").
Proof.
  intros data run.
  assert (H : data !! "whatsappId" = None
              \/ data !! "whatsappId" = Some (JStr "919876543210"))
    by (left; reflexivity).
  split; [exact H|].
  destruct (upsertUser_then_find demo_env pending_world "919876543210" data H)
    as (Hlen & r & Hfind & Hkeep).
  split; [exact Hlen|]. exists r. split; [exact Hfind|].
  apply (Hkeep "lastMessage" (JStr "hi")); [reflexivity | discriminate | discriminate].
Defined.

(** X18: [updateOrder] touches only the orders file and keeps its
    length.  For an unknown orderId it returns null and the world is
    unchanged.  Otherwise it rewrites the first order with that orderId:
    every field of the update is taken over, every other field except
    updatedAt keeps its value, and the orders at other positions are the
    stored ones as JSON writes them. *)
Theorem updateOrder_merges env (w : World) (orderId : jval) (updates : record) :
  let run := updateOrder env orderId updates in
  users (exec run w) = users w
  /\ sessions (exec run w) = sessions w
  /\ outbox (exec run w) = outbox w
  /\ length (orders (exec run w)) = length (orders w)
  /\ match list_find (keyed "orderId" orderId) (orders w) with
     | None => result run w = Ret None /\ exec run w = w
     | Some (i, old) =>
         exists new,
           result run w = Ret (Some new)
           /\ orders (exec run w) !! i = Some (json_record new)
           /\ (forall k v, updates !! k = Some v -> k <> "updatedAt" ->
                           new !! k = Some v)
           /\ (forall k, updates !! k = None -> k <> "updatedAt" ->
                         new !! k = old !! k)
           /\ (forall j, j <> i ->
                         orders (exec run w) !! j = json_record <$> orders w !! j)
     end.
Proof.
  cbv zeta.
  destruct (list_find (keyed "orderId" orderId) (orders w)) as [[i old]|] eqn:Hlf.
  - unfold result, exec. erewrite updateOrder_found by eassumption.
    cbn [fst snd users orders sessions outbox].
    pose proof Hlf as (Hi & _)%list_find_Some.
    repeat split; [by rewrite length_fmap, length_insert|].
    eexists. split; [reflexivity|]. repeat split.
    + rewrite list_lookup_fmap, list_lookup_insert_eq; [done|].
      by eapply lookup_lt_Some.
    + intros k v Hk Hu. unfold merged_at. rewrite lookup_insert_ne by done.
      by apply lookup_union_Some_l.
    + intros k Hk Hu. unfold merged_at. rewrite lookup_insert_ne by done.
      by apply lookup_union_r.
    + intros j Hj. by rewrite list_lookup_fmap, list_lookup_insert_ne.
  - unfold result, exec, updateOrder, array_findIndex. run. rewrite Hlf. done.
Qed.

(** X19: [findOrdersByWhatsappId] never changes the world, and a form
    submission by user [u] who has a session makes the list it returns for
    user [v] exactly one longer when [v] is [u], and leaves its length as
    it was for every other user. *)
Theorem form_submission_adds_one_order env (w : World) (u v : string)
    (flowToken flowData : jval) (session : record) :
  array_find "whatsappId" (JStr u) (sessions w) = Some session ->
  let w' := exec (handleFlowCompletion env (JStr u) flowToken flowData) w in
  exists before after : list record,
    result (findOrdersByWhatsappId (JStr v)) w = Ret before
    /\ result (findOrdersByWhatsappId (JStr v)) w' = Ret after
    /\ exec (findOrdersByWhatsappId (JStr v)) w' = w'
    /\ length after
       = (length before + if bool_decide (u = v) then 1 else 0)%nat.
Proof.
  intros Hfind w'. unfold array_find in Hfind.
  destruct (list_find (keyed "whatsappId" (JStr u)) (sessions w))
    as [[i s0]|] eqn:Hlf; simplify_eq/=.
  destruct (handleFlowCompletion_run env w u flowToken flowData i session Hlf)
    as (s' & m1 & m2 & n & Hrun & _).
  do 2 eexists. split; [reflexivity|]. split; [reflexivity|].
  split; [reflexivity|].
  unfold w', exec. rewrite Hrun. cbv [content]. cbn [snd orders].
  rewrite filter_json_length by done.
  rewrite filter_app, length_app, filter_cons, filter_nil.
  f_equal.
  assert (Hw : created_order env (tick (tick (tick w)))
                 (flow_order_data env w (JStr u) flowData session) !! "whatsappId"
               = Some (JStr u)) by reflexivity.
  assert (Hk : keyed "whatsappId" (JStr v)
                 (created_order env (tick (tick (tick w)))
                    (flow_order_data env w (JStr u) flowData session))
               <-> u = v).
  { unfold keyed, prop. rewrite Hw. cbn [strict_eq].
    by rewrite bool_decide_eq_true. }
  case_bool_decide as Huv.
  - rewrite decide_True; [done|]. by apply Hk.
  - rewrite decide_False; [done|]. by rewrite Hk.
Qed.

Lemma form_submission_adds_one_order_witness :
  let w' := exec (handleFlowCompletion demo_env (JStr "919876543210")
                    (JStr john_json) (JObj (obj [ ("name", JStr "John") ])))
                 pending_world in
  array_find "whatsappId" (JStr "919876543210") (sessions pending_world)
  = Some awaiting_payment_session
  /\ exists before after : list record,
       result (findOrdersByWhatsappId (JStr "919876543210")) pending_world
       = Ret before
       /\ result (findOrdersByWhatsappId (JStr "919876543210")) w' = Ret after
       /\ length after = (length before + 1)%nat.
Proof.
  intros w'.
  assert (H : array_find "whatsappId" (JStr "919876543210") (sessions pending_world)
              = Some awaiting_payment_session) by reflexivity.
  split; [exact H|].
  destruct (form_submission_adds_one_order demo_env pending_world
              "919876543210" "919876543210" (JStr john_json)
              (JObj (obj [ ("name", JStr "John") ])) awaiting_payment_session H)
    as (before & after & Hb & Ha & _ & Hlen).
  exists before, after. split; [exact Hb|]. split; [exact Ha|]. exact Hlen.
Defined.

(** X20: a webhook delivery in which no [value] carries a [messages]
    array - status updates, error notifications, anything else - is
    acknowledged with 200 EVENT_RECEIVED and leaves users, orders,
    sessions, the outbox and the clock exactly as they were, however many
    entries and changes it has. *)
Theorem webhook_without_messages_changes_nothing env (req : request) (w : World) :
  Forall (fun value => is_array (opt_member value "messages") = false)
         (values_of (body req)) ->
  handleWebhook env req w = (Ret EVENT_RECEIVED, w).
Proof.
  intros Hvalues. unfold values_of in Hvalues.
  rewrite Forall_bind in Hvalues.
  unfold handleWebhook.
  destruct (is_array (opt_member (body req) "entry")); cbn [negb]; [|done].
  apply try_then_ret. apply for_of_frame.
  eapply Forall_impl; [exact Hvalues|]. intros entry Hentry w0.
  cbv beta delta [compose] in Hentry. rewrite Forall_bind in Hentry.
  destruct (is_array (opt_member entry "changes")); cbn [negb]; [|done].
  apply for_of_frame.
  eapply Forall_impl; [exact Hentry|]. intros change Hchange w1.
  cbv beta delta [compose] in Hchange. rewrite Forall_singleton in Hchange.
  destruct (truthy (opt_member change "value")) eqn:Hv; cbn [negb]; [|done].
  run. rewrite !(member_truthy _ _ Hv), Hchange.
  destruct (is_array (opt_member (opt_member change "value") "statuses"));
    [apply handleStatusUpdates_frame|].
  destruct (truthy (opt_member (opt_member change "value") "errors"));
    [apply handleErrors_frame | done].
Qed.

Lemma webhook_without_messages_changes_nothing_witness :
  Forall (fun value => is_array (opt_member value "messages") = false)
         (values_of status_delivery)
  /\ handleWebhook demo_env (mkRequest ∅ status_delivery) pending_world
     = (Ret EVENT_RECEIVED, pending_world).
Proof.
  assert (H : Forall (fun value => is_array (opt_member value "messages") = false)
                     (values_of status_delivery))
    by (repeat constructor).
  split; [exact H|].
  exact (webhook_without_messages_changes_nothing demo_env
           (mkRequest ∅ status_delivery) pending_world H).
Defined.

(** X21: when every record of the [messages] array gets past the log
    lines at the top of the loop (it is not null or undefined, and its
    from, type, id and timestamp can be printed), [handleIncomingMessages]
    returns normally: whatever goes wrong while one record is processed (a
    text record without text, a missing button, a text that cannot be
    printed, a failure in a controller) is caught by the per-record try
    and the loop goes on. *)
Theorem handleIncomingMessages_contains_errors env (v : record)
    (msgs : list jval) (w : World) :
  prop v "messages" = JArr msgs ->
  Forall (fun m => loggable m = true) msgs ->
  result (handleIncomingMessages env (JObj v)) w = Ret tt.
Proof.
  intros Hmsgs Hall.
  destruct (handleIncomingMessages_loop env) as (body & Hloop & Hret & _).
  unfold result. rewrite (Hloop v msgs w Hmsgs).
  destruct (for_of_returns body msgs) with (w := w) as [w' ->]; [|done].
  eapply Forall_impl; [exact Hall|]. intros x Hx. by apply Hret.
Qed.

Lemma handleIncomingMessages_contains_errors_witness :
  let msgs := [ JNum 1; JObj (obj [ ("type", JStr "text") ]);
                JObj (obj [ ("from", JStr "919876543210"); ("type", JStr "text");
                            ("text", JObj (obj [ ("body",
                               JObj (obj [ ("toString", JNum 1) ])) ])) ]);
                text_record "919876543210" "hi" ] in
  let v := obj [ ("messages", JArr msgs) ] in
  prop v "messages" = JArr msgs
  /\ Forall (fun m => loggable m = true) msgs
  /\ result (handleIncomingMessages demo_env (JObj v)) pending_world = Ret tt.
Proof.
  intros msgs v.
  assert (H1 : prop v "messages" = JArr msgs) by reflexivity.
  assert (H2 : Forall (fun m => loggable m = true) msgs) by (repeat constructor).
  split; [exact H1|]. split; [exact H2|].
  exact (handleIncomingMessages_contains_errors demo_env v msgs pending_world H1 H2).
Defined.

(** X22: the log lines at the top of the loop are outside the try: the
    first record that is null or undefined makes [handleIncomingMessages]
    throw, the records before it have been processed and those after it
    are not - the world is the one reached on the records before it. *)
Theorem null_record_stops_the_batch env (v : record) (l1 l2 : list jval)
    (m : jval) (w : World) :
  prop v "messages" = JArr (l1 ++ m :: l2) ->
  Forall (fun x => nullish x = false) l1 ->
  nullish m = true ->
  (exists e, result (handleIncomingMessages env (JObj v)) w = Throw e)
  /\ exec (handleIncomingMessages env (JObj v)) w
     = exec (handleIncomingMessages env (JObj (<["messages" := JArr l1]> v))) w.
Proof.
  intros Hmsgs Hall Hm.
  destruct (handleIncomingMessages_loop env) as (body & Hloop & Hret & Hthrow).
  unfold result, exec. rewrite (Hloop v _ w Hmsgs).
  rewrite (Hloop (<["messages" := JArr l1]> v) l1 w)
    by (unfold prop; by rewrite lookup_insert_eq).
  destruct (for_of_aborts body l1 l2 m) with (w := w) as [e ->];
    [by apply Hthrow|].
  split; [by exists e | done].
Qed.

Lemma null_record_stops_the_batch_witness :
  let l1 := [ text_record "919876543210" "hi" ] in
  let l2 := [ text_record "919876543210" "8a" ] in
  let v := obj [ ("messages", JArr (l1 ++ JNull :: l2)) ] in
  prop v "messages" = JArr (l1 ++ JNull :: l2)
  /\ Forall (fun x => nullish x = false) l1
  /\ nullish JNull = true
  /\ (exists e, result (handleIncomingMessages demo_env (JObj v)) pending_world
                = Throw e)
  /\ exec (handleIncomingMessages demo_env (JObj v)) pending_world
     = exec (handleIncomingMessages demo_env
               (JObj (<["messages" := JArr l1]> v))) pending_world.
Proof.
  intros l1 l2 v.
  assert (H1 : prop v "messages" = JArr (l1 ++ JNull :: l2)) by reflexivity.
  assert (H2 : Forall (fun x => nullish x = false) l1) by (repeat constructor).
  assert (H3 : nullish JNull = true) by reflexivity.
  split; [exact H1|]. split; [exact H2|]. split; [exact H3|].
  exact (null_record_stops_the_batch demo_env v l1 l2 JNull pending_world H1 H2 H3).
Defined.

(** X23: a record that gets past the log lines (its from, type, id and
    timestamp can be printed) and whose type is not text, interactive or
    button (an image, a location, a record without type) is answered with
    exactly one message, the fixed capability notice, addressed to
    [message.from]; users, orders and sessions are unchanged. *)
Theorem unsupported_record_gets_notice env (v m : record) (w : World) :
  prop v "messages" = JArr [JObj m] ->
  loggable (JObj m) = true ->
  prop m "type" ∉ [ JStr "text"; JStr "interactive"; JStr "button" ] ->
  let run := handleIncomingMessages env (JObj v) in
  result run w = Ret tt
  /\ outbox (exec run w)
     = outbox w ++ [(prop m "from", text_message unsupported_text)]
  /\ users (exec run w) = users w
  /\ orders (exec run w) = orders w
  /\ sessions (exec run w) = sessions w.
Proof.
  intros Hmsgs Hlog Htype run.
  destruct (loggable_inv _ Hlog) as (_ & [f Hf] & [t Ht] & [i Hi] & [s Hs]).
  cbn [opt_member member] in Hf, Ht, Hi, Hs.
  unfold run, handleIncomingMessages.
  cbn [member]. rewrite Hmsgs.
  change (lift (Ret (JArr [JObj m])) ≫= ?f) with (f (JArr [JObj m])).
  cbv beta. cbn [js_or truthy array_elems for_of member].
  unfold result, exec, sendTextMessage, sendMessage. run.
  rewrite Hf, Ht, Hi, Hs. run.
  rewrite !strict_eq_str_false by (intros E; apply Htype; rewrite E; in_list).
  done.
Qed.

Lemma unsupported_record_gets_notice_witness :
  let m := obj [ ("from", JStr "919876543210"); ("type", JStr "image") ] in
  let v := obj [ ("messages", JArr [ JObj m ]) ] in
  let run := handleIncomingMessages demo_env (JObj v) in
  prop v "messages" = JArr [ JObj m ]
  /\ loggable (JObj m) = true
  /\ (prop m "type" ∉ [ JStr "text"; JStr "interactive"; JStr "button" ])
  /\ result run pending_world = Ret tt
  /\ outbox (exec run pending_world)
     = outbox pending_world
       ++ [(JStr "919876543210", text_message unsupported_text)]
  /\ orders (exec run pending_world) = orders pending_world
  /\ sessions (exec run pending_world) = sessions pending_world.
Proof.
  intros m v run.
  assert (H1 : prop v "messages" = JArr [ JObj m ]) by reflexivity.
  assert (H2 : prop m "type" ∉ [ JStr "text"; JStr "interactive"; JStr "button" ]).
  { change (prop m "type") with (JStr "image"). intros H.
    repeat (apply elem_of_cons in H as [H|H]; [discriminate H|]).
    by apply elem_of_nil in H. }
  split; [exact H1|]. split; [reflexivity|]. split; [exact H2|].
  destruct (unsupported_record_gets_notice demo_env v m pending_world H1 eq_refl H2)
    as (Hres & Hout & _ & Hord & Hsess).
  split; [exact Hres|]. split; [exact Hout|]. split; [exact Hord | exact Hsess].
Defined.

(** X24: an interactive record that gets past the log lines (its from,
    id and timestamp can be printed) and whose
    [interactive.nfm_reply.response_json] is truthy is handled as a form
    submission, whether or not it also carries a button or list reply: the
    world it leaves is that of [handleFlowCompletion] on the sender, the
    raw response and its parse, and the loop returns normally even when
    that call throws. *)
Theorem form_reply_takes_precedence env (v m : record) (w : World) :
  prop v "messages" = JArr [JObj m] ->
  loggable (JObj m) = true ->
  prop m "type" = JStr "interactive" ->
  let flowResponse :=
    at_path (JObj m) [ "interactive"; "nfm_reply"; "response_json" ] in
  truthy flowResponse = true ->
  result (handleIncomingMessages env (JObj v)) w = Ret tt
  /\ exec (handleIncomingMessages env (JObj v)) w
     = exec (handleFlowCompletion env (prop m "from") flowResponse
               (parseFlowResponse env flowResponse)) w.
Proof.
  intros Hmsgs Hlog Htype flowResponse Hfr.
  destruct (loggable_inv _ Hlog) as (_ & [f Hf] & [t Ht] & [i Hi] & [s Hs]).
  cbn [opt_member member] in Hf, Ht, Hi, Hs.
  unfold handleIncomingMessages.
  cbn [member]. rewrite Hmsgs.
  change (lift (Ret (JArr [JObj m])) ≫= ?f) with (f (JArr [JObj m])).
  cbv beta. cbn [js_or truthy array_elems for_of member].
  destruct (interactive_path m "button_reply" "id") as (b & Hb & _); [in_list|].
  destruct (interactive_path m "list_reply" "id") as (l & Hl & _); [in_list|].
  destruct (interactive_path m "nfm_reply" "response_json") as (n & Hn & Hnfm);
    [in_list|].
  fold flowResponse in Hnfm.
  unfold result, exec. run. rewrite Hf, Ht, Hi, Hs. run. rewrite Htype.
  change (strict_eq (JStr "interactive") (JStr "text")) with false.
  change (strict_eq (JStr "interactive") (JStr "interactive")) with true.
  cbv iota. rewrite Hb, Hl, Hn, Hnfm, Hfr.
  by destruct (handleFlowCompletion env (prop m "from") flowResponse
                 (parseFlowResponse env flowResponse) w) as [[[]|e] w'].
Qed.

Lemma form_reply_takes_precedence_witness :
  let v := obj [ ("messages", JArr [ JObj form_and_button_record ]) ] in
  let run := handleIncomingMessages demo_env (JObj v) in
  prop v "messages" = JArr [ JObj form_and_button_record ]
  /\ loggable (JObj form_and_button_record) = true
  /\ prop form_and_button_record "type" = JStr "interactive"
  /\ truthy (at_path (JObj form_and_button_record)
               [ "interactive"; "nfm_reply"; "response_json" ]) = true
  /\ result run pending_world = Ret tt
  /\ exec run pending_world
     = exec (handleFlowCompletion demo_env (JStr "919876543210") (JStr john_json)
               (JObj (obj [ ("name", JStr "John") ]))) pending_world.
Proof.
  intros v run.
  assert (H1 : prop v "messages" = JArr [ JObj form_and_button_record ])
    by reflexivity.
  assert (H2 : prop form_and_button_record "type" = JStr "interactive")
    by reflexivity.
  assert (H3 : truthy (at_path (JObj form_and_button_record)
                         [ "interactive"; "nfm_reply"; "response_json" ]) = true)
    by reflexivity.
  split; [exact H1|]. split; [reflexivity|]. split; [exact H2|].
  split; [exact H3|].
  exact (form_reply_takes_precedence demo_env v form_and_button_record
           pending_world H1 eq_refl H2 H3).
Defined.

(** X25: an interactive record that gets past the log lines (its from,
    id and timestamp can be printed), with no form response and no button
    or list reply identifier (all three absent or falsy), is dropped
    silently: nothing is sent, nothing is stored, and no clock reading is
    taken. *)
Theorem interactive_without_reply_is_ignored env (v m : record) (w : World) :
  prop v "messages" = JArr [JObj m] ->
  loggable (JObj m) = true ->
  prop m "type" = JStr "interactive" ->
  truthy (at_path (JObj m) [ "interactive"; "nfm_reply"; "response_json" ]) = false ->
  truthy (at_path (JObj m) [ "interactive"; "button_reply"; "id" ]) = false ->
  truthy (at_path (JObj m) [ "interactive"; "list_reply"; "id" ]) = false ->
  handleIncomingMessages env (JObj v) w = (Ret tt, w).
Proof.
  intros Hmsgs Hlog Htype Hfr Hbr Hlr.
  destruct (loggable_inv _ Hlog) as (_ & [f Hf] & [t Ht] & [i Hi] & [s Hs]).
  cbn [opt_member member] in Hf, Ht, Hi, Hs.
  unfold handleIncomingMessages.
  cbn [member]. rewrite Hmsgs.
  change (lift (Ret (JArr [JObj m])) ≫= ?f) with (f (JArr [JObj m])).
  cbv beta. cbn [js_or truthy array_elems for_of member].
  destruct (interactive_path m "button_reply" "id") as (b & Hb & Hbid); [in_list|].
  destruct (interactive_path m "list_reply" "id") as (l & Hl & Hlid); [in_list|].
  destruct (interactive_path m "nfm_reply" "response_json") as (n & Hn & Hnfm);
    [in_list|].
  run. rewrite Hf, Ht, Hi, Hs. run. rewrite Htype.
  change (strict_eq (JStr "interactive") (JStr "text")) with false.
  change (strict_eq (JStr "interactive") (JStr "interactive")) with true.
  cbv iota. rewrite Hb, Hl, Hn, Hnfm, Hfr.
  unfold js_or. rewrite Hbid, Hbr, Hlid, Hlr. reflexivity.
Qed.

Lemma interactive_without_reply_is_ignored_witness :
  let m := obj [ ("from", JStr "919876543210"); ("type", JStr "interactive");
                 ("interactive", JObj (obj [ ("type", JStr "button_reply") ])) ] in
  let v := obj [ ("messages", JArr [ JObj m ]) ] in
  prop v "messages" = JArr [ JObj m ]
  /\ loggable (JObj m) = true
  /\ prop m "type" = JStr "interactive"
  /\ truthy (at_path (JObj m) [ "interactive"; "nfm_reply"; "response_json" ]) = false
  /\ truthy (at_path (JObj m) [ "interactive"; "button_reply"; "id" ]) = false
  /\ truthy (at_path (JObj m) [ "interactive"; "list_reply"; "id" ]) = false
  /\ handleIncomingMessages demo_env (JObj v) pending_world = (Ret tt, pending_world).
Proof.
  intros m v.
  assert (H1 : prop v "messages" = JArr [ JObj m ]) by reflexivity.
  assert (H2 : prop m "type" = JStr "interactive") by reflexivity.
  assert (H3 : truthy (at_path (JObj m)
                         [ "interactive"; "nfm_reply"; "response_json" ]) = false)
    by reflexivity.
  assert (H4 : truthy (at_path (JObj m) [ "interactive"; "button_reply"; "id" ])
               = false) by reflexivity.
  assert (H5 : truthy (at_path (JObj m) [ "interactive"; "list_reply"; "id" ])
               = false) by reflexivity.
  split; [exact H1|]. split; [reflexivity|].
  repeat (split; [assumption|]).
  exact (interactive_without_reply_is_ignored demo_env v m pending_world
           H1 eq_refl H2 H3 H4 H5).
Defined.

(** X26: the service is in test mode exactly when the access token
    is unset, empty, contains the substring "test" (case-sensitively, at
    any position), or is the placeholder
    "your_whatsapp_access_token_here". *)
Theorem isTestMode_spec (accessToken : option string) :
  isTestMode accessToken = true
  <-> match accessToken with
      | None => True
      | Some s =>
          s = EmptyString
          \/ (exists a b, s = a +:+ "test" +:+ b)
          \/ s = "your_whatsapp_access_token_here"
      end.
Proof.
  destruct accessToken as [s|]; [|done].
  unfold isTestMode, hasRealCredentials, js_and.
  rewrite <- includes_spec, <- (String.eqb_eq s "your_whatsapp_access_token_here").
  destruct (includes s "test"),
    (String.eqb s "your_whatsapp_access_token_here"), s;
    cbn [truthy negb String.eqb]; intuition discriminate.
Qed.

(** X27: [serviceFlowResponse] builds a flow message for the four
    identifiers of the welcome buttons (and for the names every object
    inherits, such as "constructor", for which [flowData[serviceType]] is
    not undefined); for every other string [service.header] is read from
    undefined and the call throws a TypeError. *)
Theorem serviceFlowResponse_known_ids (s : string) :
  (s ∈ welcome_buttons.*1 ++ object_prototype_keys ->
   exists msg,
     serviceFlowResponse (JStr s) = Ret msg
     /\ at_path msg [ "interactive"; "type" ] = JStr "flow")
  /\ (s ∉ welcome_buttons.*1 ++ object_prototype_keys ->
      exists msg, serviceFlowResponse (JStr s) = Throw (TypeError msg)).
Proof.
  split.
  - intros Hin. cbn in Hin.
    repeat (apply elem_of_cons in Hin as [-> | Hin]);
      [ .. | by apply elem_of_nil in Hin ];
      eexists; split; reflexivity.
  - intros Hnot. apply not_elem_of_app in Hnot as [Hids Hproto].
    unfold serviceFlowResponse. cbn [to_js_string].
    unfold prop. rewrite (flowData_keys _ Hids), (object_prototype_own _ Hproto).
    by eexists.
Qed.

(** X28: selecting a service by any of the keywords and then
    submitting the form creates one order for that user whose serviceType
    is the selected service's name and whose amount is that service's
    price in the table of [getServiceAmount] - never the default of 100 -
    and leaves the session at step awaiting_payment. *)
Theorem selection_then_form_prices_the_order env (w : World)
    (u text id name : string) (flowToken flowData : jval) :
  (trim (toLowerCase text), (id, name)) ∈ service_keywords ->
  let w1 := exec (handleMessage env (JStr u) (JStr text)) w in
  let w2 := exec (handleFlowCompletion env (JStr u) flowToken flowData) w1 in
  exists (o : record) (price : Z),
    orders w2 = (json_record <$> orders w1) ++ [o]
    /\ o !! "whatsappId" = Some (JStr u)
    /\ o !! "serviceType" = Some (JStr name)
    /\ o !! "amount" = Some (JNum price)
    /\ (name, price) ∈ price_table
    /\ o !! "status" = Some (JStr "pending")
    /\ session_step u w2 = Some (JStr "awaiting_payment").
Proof.
  intros Hkw w1 w2.
  destruct (handleMessage_selects env w u text id name Hkw)
    as (s & Hfind & _ & _ & Hname).
  fold w1 in Hfind. unfold array_find in Hfind.
  destruct (list_find (keyed "whatsappId" (JStr u)) (sessions w1))
    as [[i s0]|] eqn:Hlf; simplify_eq/=.
  destruct (handleFlowCompletion_run env w1 u flowToken flowData i s Hlf)
    as (s' & m1 & m2 & n & Hrun & Hkey & Hstep & _).
  destruct (service_keywords_priced _ _ _ Hkw) as (price & Hprice & Htable).
  unfold w2, exec. rewrite Hrun. cbn [snd orders sessions].
  eexists _, price. split; [by rewrite fmap_app|].
  rewrite !json_record_lookup.
  assert (Hfields :
    forall k v, k ∈ [ "whatsappId"; "serviceType"; "amount" ] ->
      flow_order_data env w1 (JStr u) flowData s !! k = Some v ->
      created_order env (tick (tick (tick w1)))
        (flow_order_data env w1 (JStr u) flowData s) !! k = Some v).
  { intros k v Hk Hv. unfold created_order.
    rewrite !lookup_insert_ne
      by (intros <-; repeat (apply elem_of_cons in Hk as [|Hk]; [done|]);
          by apply elem_of_nil in Hk).
    by apply lookup_union_Some_l. }
  split; [erewrite Hfields; [| in_list | reflexivity]; done|].
  split.
  { erewrite Hfields; [| in_list | reflexivity].
    by rewrite (prop_own _ _ _ Hname). }
  split.
  { erewrite Hfields; [| in_list | reflexivity].
    by rewrite (prop_own _ _ _ Hname), Hprice. }
  split; [done|]. split; [reflexivity|].
  unfold session_step. cbn [sessions].
  erewrite array_find_updated by done.
  by rewrite json_record_lookup, Hstep.
Qed.

Lemma selection_then_form_prices_the_order_witness :
  let w1 := exec (handleMessage demo_env (JStr "919876543210") (JStr " 7/12 "))
                 empty_world in
  let w2 := exec (handleFlowCompletion demo_env (JStr "919876543210")
                    (JStr john_json) (JObj (obj [ ("name", JStr "John") ]))) w1 in
  (trim (toLowerCase " 7/12 "), ("712_service", "7/12 Form")) ∈ service_keywords
  /\ exists (o : record) (price : Z),
       orders w2 = (json_record <$> orders w1) ++ [o]
       /\ o !! "serviceType" = Some (JStr "7/12 Form")
       /\ o !! "amount" = Some (JNum price)
       /\ ("7/12 Form", price) ∈ price_table
       /\ session_step "919876543210" w2 = Some (JStr "awaiting_payment").
Proof.
  intros w1 w2.
  assert (H : (trim (toLowerCase " 7/12 "), ("712_service", "7/12 Form"))
              ∈ service_keywords) by (vm_compute; in_list).
  split; [exact H|].
  destruct (selection_then_form_prices_the_order demo_env empty_world
              "919876543210" " 7/12 " "712_service" "7/12 Form"
              (JStr john_json) (JObj (obj [ ("name", JStr "John") ])) H)
    as (o & price & Ho & _ & Hty & Ham & Htab & _ & Hstep).
  exists o, price. repeat (split; [assumption|]). exact Hstep.
Defined.

(** X29: when no button is null or undefined,
    [sendInteractiveMessage] sends exactly one message, with one reply
    button per button given, in the same order, carrying that button's id
    and title (there is no cap on their number); when some button is null
    or undefined the message is never built: the call throws and nothing
    is sent. *)
Theorem sendInteractiveMessage_maps_buttons env (to : jval)
    (buttons : list jval) (w : World) :
  if forallb (fun btn => negb (nullish btn)) buttons
  then exists msg,
         sendInteractiveMessage env to buttons w
         = (Ret (gateway env (ticks w) to msg), tick (record_send to msg w))
         /\ at_path msg [ "interactive"; "action"; "buttons" ]
            = JArr (map reply_of buttons)
  else exists e, sendInteractiveMessage env to buttons w = (Throw e, w).
Proof.
  destruct (forallb _ buttons) eqn:Hall.
  - rewrite forallb_forall in Hall.
    unfold sendInteractiveMessage. run.
    erewrite (map_M_pure _ reply_of).
    + eexists. split; reflexivity.
    + apply Forall_forall. intros btn Hin%list_elem_of_In%Hall.
      apply negb_true_iff in Hin. run.
      by rewrite !(member_not_nullish _ _ Hin).
  - unfold sendInteractiveMessage. run.
    match goal with |- context [map_M ?f buttons w] =>
      destruct (map_M_throws f buttons w) as [e ->]; [| |by exists e] end.
    + intros btn. run. destruct (nullish btn) eqn:Hn.
      * right. destruct btn; try discriminate Hn; by eexists.
      * left. rewrite !(member_not_nullish _ _ Hn). by eexists.
    + apply Exists_exists.
      assert (Hex : existsb (fun btn => nullish btn) buttons = true).
      { clear -Hall. induction buttons as [|b l IH]; [done|].
        cbn in *. destruct (nullish b); [done|]. by apply IH. }
      apply existsb_exists in Hex as (btn & Hin & Hn).
      exists btn. split; [by apply list_elem_of_In|].
      run. destruct btn; try discriminate Hn; by eexists.
Qed.
